(** * Response synthesis of the mental-health support bot (app.py)

    A shallow embedding of the decision logic of [app.py]: the crisis
    lexicon matcher [detect_crisis], the two reply builders
    [build_empathetic_response] and [build_emotion_specific_response], the
    orchestration [analyze_and_respond], the coping-tip block of the
    chat loop and the message history that the chat loop keeps.

    Conventions of the embedding.
    - A Python [str] is a [string] that holds its UTF-8 bytes; a phrase
      of ASCII characters occurs in a text exactly when its bytes occur
      in the bytes of the text.
    - [str.lower] and [str.upper] are defined on all of Unicode.
      [PyStr.lower] and [PyStr.upper] are these builtins on ASCII text
      ([PyStr.is_ascii]): they change the ASCII letters and nothing else.
      On other text the builtins do more (U+212A lower-cases to k, U+017F
      upper-cases to S), so the matcher is given twice:
      [detect_crisis_with lower] takes the builtin as the parameter
      [lower] and stands for the code on every text, and [detect_crisis]
      is its instance at [PyStr.lower], the code on ASCII text.
    - A Python [float] is a binary64 [float], a Python [int] a [Z].
    - A raised exception is the left injection of [exn + A].
    - A result dict of a pipeline has a [str] under label and a [float]
      under score, and either key may be missing.
    - The builtin [hash] of a [str] is keyed by a secret that is drawn
      when the interpreter starts, so it is a parameter
      [hash : string -> Z] of every definition that calls it.
      [PyHash.py_str_hash] is CPython's keyed hash on ASCII text. *)

From Stdlib Require Import ZArith Floats Ascii String.
From stdpp Require Import gmap strings list.

Set Warnings "-inexact-float".

Open Scope string_scope.
Open Scope Z_scope.

(** ** Python strings *)

Module PyStr.

Definition is_ascii_upper (c : ascii) : bool :=
  let n := N_of_ascii c in (65 <=? n)%N && (n <=? 90)%N.

Definition is_ascii_lower (c : ascii) : bool :=
  let n := N_of_ascii c in (97 <=? n)%N && (n <=? 122)%N.

Definition lower_char (c : ascii) : ascii :=
  if is_ascii_upper c then ascii_of_N (N_of_ascii c + 32) else c.

Definition upper_char (c : ascii) : ascii :=
  if is_ascii_lower c then ascii_of_N (N_of_ascii c - 32) else c.

Fixpoint map_chars (f : ascii -> ascii) (s : string) : string :=
  match s with
  | EmptyString => EmptyString
  | String c s' => String (f c) (map_chars f s')
  end.

(** [s.lower()] and [s.upper()] *)
Definition lower : string -> string := map_chars lower_char.
Definition upper : string -> string := map_chars upper_char.

(** [s.startswith(p)] *)
Fixpoint startswith (p s : string) : bool :=
  match p, s with
  | EmptyString, _ => true
  | String _ _, EmptyString => false
  | String a p', String b s' => if Ascii.eqb a b then startswith p' s' else false
  end.

(** [p in s]: [p] occurs in [s] as a contiguous substring *)
Fixpoint contains (p s : string) : bool :=
  startswith p s ||
  match s with
  | EmptyString => false
  | String _ s' => contains p s'
  end.

(** The characters for which [str.isspace] holds in ASCII. *)
Definition is_space (c : ascii) : bool :=
  let n := N_of_ascii c in ((9 <=? n)%N && (n <=? 13)%N) || (28 <=? n)%N && (n <=? 32)%N.

Fixpoint all_chars (f : ascii -> bool) (s : string) : bool :=
  match s with
  | EmptyString => true
  | String c s' => f c && all_chars f s'
  end.

Fixpoint occurs (c : ascii) (s : string) : bool :=
  match s with
  | EmptyString => false
  | String d s' => Ascii.eqb c d || occurs c s'
  end.

(** [s.isascii()] *)
Definition is_ascii (s : string) : bool :=
  all_chars (fun c => (N_of_ascii c <? 128)%N) s.

End PyStr.

(** ** Crisis lexicon matcher (app.py, lines 34-49) *)

Definition crisis_terms : list string :=
  [ "suicide";
    "kill myself";
    "end my life";
    "can't go on";
    "cant go on";
    "self harm";
    "self-harm";
    "hurt myself";
    "harm myself";
    "ending it";
    "no reason to live" ].

Definition detect_crisis (text : string) : bool :=
  let t := PyStr.lower text in
  existsb (fun term => PyStr.contains term t) crisis_terms.

(** [detect_crisis] with the builtin [str.lower] as a parameter: the code
    on every text, ASCII or not. *)
Definition detect_crisis_with (lower : string -> string) (text : string) : bool :=
  let t := lower text in
  existsb (fun term => PyStr.contains term t) crisis_terms.

(** What is known of the builtin: on ASCII text it is [PyStr.lower]. *)
Definition lowers_ascii (lower : string -> string) : Prop :=
  forall s, PyStr.is_ascii s = true -> lower s = PyStr.lower s.

(** ** Exceptions (app.py raises through list and dict subscripts and [%]) *)

Inductive exn : Set := IndexError | KeyError | ZeroDivisionError.

#[export] Instance exn_ret : MRet (sum exn) := fun _ x => inr x.

#[export] Instance exn_bind : MBind (sum exn) := fun _ _ f m =>
  match m with
  | inl e => inl e
  | inr x => f x
  end.

Definition raise {A : Type} (e : exn) : exn + A := inl e.

(** [l[i]] on a list: a negative index counts from the end. *)
Definition list_getitem {A : Type} (l : list A) (i : Z) : exn + A :=
  let n := Z.of_nat (length l) in
  let j := if i <? 0 then i + n else i in
  if (0 <=? j) && (j <? n)
  then match l !! Z.to_nat j with Some x => mret x | None => raise IndexError end
  else raise IndexError.

(** [d[k]] on a dict with [str] keys *)
Definition dict_getitem {A : Type} (d : gmap string A) (k : string) : exn + A :=
  match d !! k with
  | Some x => mret x
  | None => raise KeyError
  end.

(** [a % b] on ints: the result takes the sign of [b]. *)
Definition py_mod (a b : Z) : exn + Z :=
  if b =? 0 then raise ZeroDivisionError else mret (a mod b).

(** [len(l)] *)
Definition len {A : Type} (l : list A) : Z := Z.of_nat (length l).

(** ** CPython's [hash] of a [str]

    SipHash-1-3 over the character buffer, keyed by the first sixteen
    bytes of the interpreter's hash secret (the default of CPython 3.11
    and later on 64-bit builds).  The secret is drawn at random when the
    interpreter starts, or is expanded from [PYTHONHASHSEED]. *)

Module PyHash.

Definition wrap64 (x : Z) : Z := Z.land x (Z.ones 64).

Definition rotl64 (x b : Z) : Z :=
  wrap64 (Z.lor (Z.shiftl x b) (Z.shiftr x (64 - b))).

Definition sipstate : Type := Z * Z * Z * Z.

(** [HALF_ROUND(a,b,c,d,s,t)] *)
Definition half_round (a b c d s t : Z) : sipstate :=
  let a := wrap64 (a + b) in
  let c := wrap64 (c + d) in
  let b := Z.lxor (rotl64 b s) a in
  let d := Z.lxor (rotl64 d t) c in
  let a := rotl64 a 32 in
  (a, b, c, d).

(** [SINGLE_ROUND(v0,v1,v2,v3)] *)
Definition single_round (v : sipstate) : sipstate :=
  let '(v0, v1, v2, v3) := v in
  let '(v0, v1, v2, v3) := half_round v0 v1 v2 v3 13 16 in
  let '(v2, v1, v0, v3) := half_round v2 v1 v0 v3 17 21 in
  (v0, v1, v2, v3).

(** little-endian value of at most eight bytes *)
Fixpoint le_bytes (bs : list Z) : Z :=
  match bs with
  | [] => 0
  | b :: bs' => Z.lor b (Z.shiftl (le_bytes bs') 8)
  end.

Definition absorb (v : sipstate) (m : Z) : sipstate :=
  let '(v0, v1, v2, v3) := v in
  let '(v0, v1, v2, v3) := single_round (v0, v1, v2, Z.lxor v3 m) in
  (Z.lxor v0 m, v1, v2, v3).

(** the [while (src_sz >= 8)] loop, then the tail of fewer than eight
    bytes, returned with the state *)
Fixpoint blocks (v : sipstate) (src : list Z) : sipstate * list Z :=
  match src with
  | b0 :: b1 :: b2 :: b3 :: b4 :: b5 :: b6 :: b7 :: rest =>
      blocks (absorb v (le_bytes [b0; b1; b2; b3; b4; b5; b6; b7])) rest
  | _ => (v, src)
  end.

Definition siphash13 (k0 k1 : Z) (src : list Z) : Z :=
  let b := wrap64 (Z.shiftl (len src) 56) in
  let v0 := Z.lxor k0 0x736f6d6570736575 in
  let v1 := Z.lxor k1 0x646f72616e646f6d in
  let v2 := Z.lxor k0 0x6c7967656e657261 in
  let v3 := Z.lxor k1 0x7465646279746573 in
  let '(v, tail) := blocks (v0, v1, v2, v3) src in
  let b := Z.lor b (le_bytes tail) in
  let '(v0, v1, v2, v3) := absorb v b in
  let v2 := Z.lxor v2 0xff in
  let '(v0, v1, v2, v3) := single_round (single_round (single_round (v0, v1, v2, v3))) in
  Z.lxor (Z.lxor v0 v1) (Z.lxor v2 v3).

(** [lcg_urandom]: the secret expanded from [PYTHONHASHSEED], [size]
    bytes from state [x] *)
Fixpoint lcg_urandom (x : Z) (size : nat) : list Z :=
  match size with
  | O => []
  | S size' =>
      let x := Z.land (x * 214013 + 2531011) (Z.ones 32) in
      Z.land (Z.shiftr x 16) 0xff :: lcg_urandom x size'
  end.

(** the two SipHash keys [(k0, k1)] of the process *)
Definition secret : Type := Z * Z.

Definition secret_of_seed (seed : Z) : secret :=
  let bytes := if seed =? 0 then repeat 0 24 else lcg_urandom seed 24 in
  (le_bytes (take 8 bytes), le_bytes (take 8 (drop 8 bytes))).

(** The character buffer of an ASCII text, one byte for each character.
    CPython keeps other text in Latin-1, UCS-2 or UCS-4 form; that is not
    modelled, and [py_str_hash] is used on ASCII text only. *)
Definition buffer (s : string) : list Z :=
  map (fun c => Z.of_N (N_of_ascii c)) (list_ascii_of_string s).

(** [hash(s)]: a signed 64-bit value, never [-1], and [0] on [""] *)
Definition py_str_hash (k : secret) (s : string) : Z :=
  match buffer s with
  | [] => 0
  | src =>
      let u := siphash13 (fst k) (snd k) src in
      let x := if 2 ^ 63 <=? u then u - 2 ^ 64 else u in
      if x =? -1 then -2 else x
  end.

End PyHash.

(** ** Reply builders *)

Definition nl : string := String "010"%char EmptyString.

Definition CRISIS_REPLY : string :=
  "I'm really sorry you're feeling this way. Your life matters and you deserve support. "
  +:+ "If you're in immediate danger, please call your local emergency number (e.g., 112/911/999)." +:+ nl +:+ nl
  +:+ "You can reach a crisis line right now:" +:+ nl
  +:+ "- International: https://findahelpline.com/" +:+ nl
  +:+ "- India: AASRA +91-9820466726 | https://aasra.info/" +:+ nl
  +:+ "- US: 988 Suicide & Crisis Lifeline (call/text 988) | https://988lifeline.org/" +:+ nl +:+ nl
  +:+ "I'm here to listen. Would you like to tell me a little more about what's on your mind?".

Definition NEGATIVE_STRONG_REPLY : string :=
  "That sounds really tough, and it's completely okay to feel this way. "
  +:+ "You don't have to handle everything at once. Maybe try a small grounding step: "
  +:+ "take 3 slow breaths (in 4s, hold 4s, out 6s). If you'd like, we can break the situation "
  +:+ "into smaller parts together. What part feels heaviest right now?".

Definition NEGATIVE_MILD_REPLY : string :=
  "I hear some heaviness in what you shared. You're not alone. "
  +:+ "What would feel most supportive for you right now—venting, problem-solving, or a simple check-in?".

Definition POSITIVE_REPLY : string :=
  "I love the hopeful energy here. That's a strength you can build on. "
  +:+ "What helped you get to this point today? Maybe we can note a small win to carry forward.".

Definition NEUTRAL_REPLY : string :=
  "Thanks for sharing. I'm here with you. "
  +:+ "If you'd like, I can offer a gentle prompt: what's one small action that could make the next hour "
  +:+ "a bit easier?".

(** app.py, lines 52-89 *)
Definition build_empathetic_response
    (label : string) (score : float) (user_text : string) (crisis : bool) : string :=
  if crisis then CRISIS_REPLY
  else if (label =? "NEGATIVE")%string then
    if (0.7 <=? score)%float then NEGATIVE_STRONG_REPLY else NEGATIVE_MILD_REPLY
  else if (label =? "POSITIVE")%string then POSITIVE_REPLY
  else NEUTRAL_REPLY.

(** The [templates] dict of [build_emotion_specific_response]
    (app.py, lines 100-129). *)
Definition templates : gmap string (list string) :=
  list_to_map
    [ ("sadness",
        [ "It sounds really heavy. It's okay to feel sad. A tiny step like writing down one worry or taking a 2‑minute stretch can help. What feels smallest to try?";
          "I’m hearing a lot of weight in this. You deserve gentleness right now. Could a short break with some music or a warm drink help even 1%?" ]);
      ("anger",
        [ "That anger makes sense if things feel unfair. Want to try a 10‑second pause—inhale 4, hold 4, exhale 6—then we can sort what’s in your control?";
          "Your feelings are valid. We can channel this energy. Would listing the top 1–2 triggers help us plan a next step?" ]);
      ("fear",
        [ "When worry spikes, your body is trying to protect you. Let’s ground: name 5 things you see, 4 you feel, 3 you hear. I’m with you.";
          "Anxiety can feel loud. Let’s shrink the moment: what’s the next tiny action (30 seconds or less) you could take?" ]);
      ("disgust",
        [ "Feeling turned off or disappointed can be protective. If you zoom out, is there a boundary you’d like to set to feel safer?";
          "It’s okay to step back from what doesn’t feel right. What would a kinder environment look like for you today?" ]);
      ("surprise",
        [ "That’s a lot to take in at once. Want to unpack it together, one small piece at a time?";
          "Unexpected moments can shake us. What’s one thing you know for sure right now?" ]);
      ("neutral",
        [ "Thanks for sharing. I’m here with you. What’s one small action that could make the next hour a bit easier?";
          "I’m listening. If you’d like, we can choose between venting, problem‑solving, or a simple check‑in." ]);
      ("joy",
        [ "I love the hopeful energy here. What helped you get to this point today? Let’s note a small win to carry forward.";
          "That spark matters. What would help you keep this momentum for the next hour?" ]) ].

(** The set literal of app.py, lines 147 and 221. *)
Definition negative_emotions : gset string :=
  {[ "sadness"; "anger"; "fear"; "disgust" ]}.

(** The [tips] list of the chat loop (app.py, lines 222-227). *)
Definition tips : list string :=
  [ "Mini reset: inhale 4, hold 4, exhale 6.";
    "Micro‑action: sip water and roll your shoulders.";
    "Grounding: name 5 things you can see right now.";
    "30‑second pause: look out a window or step away from the screen." ].

(** ** Classifier results and the engine's result *)

(** One dict of a pipeline's output list: [label] is a [str] and [score]
    a [float] when the key is present. *)
Record ClassifierResult : Type := {
  cr_label : option string;
  cr_score : option float;
}.

(** A pipeline: called on a text, it returns a list of such dicts. *)
Definition classifier : Type := string -> list ClassifierResult.

(** [d.get(key, fallback)] on a key that may be missing *)
Definition get {A : Type} (entry : option A) (fallback : A) : A :=
  match entry with
  | Some x => x
  | None => fallback
  end.

(** The dict returned by [analyze_and_respond] (app.py, lines 154-161). *)
Record Response : Type := {
  res_label : string;
  res_score : float;
  res_emotion : string;
  res_emotion_score : float;
  res_crisis : bool;
  res_reply : string;
}.

(** app.py, lines 92-96 *)
Definition classify_emotion (user_text : string) (emo_clf : classifier)
    : exn + (string * float) :=
  r ← list_getitem (emo_clf user_text) 0;
  let emo_label := PyStr.lower (get (cr_label r) "neutral") in
  let emo_score := get (cr_score r) 0.5%float in
  mret (emo_label, emo_score).

Section Engine.

(** [hash] restricted to [str]: fixed for the life of one interpreter. *)
Variable hash : string -> Z.

(** app.py, lines 99-133 *)
Definition build_emotion_specific_response (emotion user_text : string)
    : exn + string :=
  let key := if bool_decide (emotion ∈ dom templates) then emotion else "neutral" in
  choices ← dict_getitem templates key;
  idx ← py_mod (Z.abs (hash user_text)) (len choices);
  list_getitem choices idx.

(** app.py, lines 136-161 *)
Definition analyze_and_respond (user_text : string) (clf emo_clf : classifier)
    : exn + Response :=
  result ← list_getitem (clf user_text) 0;
  let label := PyStr.upper (get (cr_label result) "NEUTRAL") in
  let score := get (cr_score result) 0.5%float in
  let crisis := detect_crisis user_text in
  '(emo_label, emo_score) ← classify_emotion user_text emo_clf;
  reply ←
    (if crisis then
       mret (build_empathetic_response label score user_text crisis)
     else if (label =? "NEGATIVE")%string || bool_decide (emo_label ∈ negative_emotions) then
       build_emotion_specific_response emo_label user_text
     else if (label =? "POSITIVE")%string || (emo_label =? "joy")%string then
       build_emotion_specific_response "joy" user_text
     else
       build_emotion_specific_response "neutral" user_text);
  mret {| res_label := label;
          res_score := score;
          res_emotion := emo_label;
          res_emotion_score := emo_score;
          res_crisis := crisis;
          res_reply := reply |}.

(** The coping tip of the chat loop (app.py, lines 207-230): the tip
    that is shown after the reply, if any. *)
Definition micro_boost (user_input : string) (result : Response)
    : exn + option string :=
  let label := res_label result in
  let crisis := res_crisis result in
  let emo := res_emotion result in
  if negb crisis && ((label =? "NEGATIVE")%string || bool_decide (emo ∈ negative_emotions)) then
    idx ← py_mod (Z.abs (hash user_input)) (len tips);
    tip ← list_getitem tips idx;
    mret (Some tip)
  else
    mret None.

(** One turn of the chat loop (app.py, lines 204-230): the reply that
    is written and the tip that is shown. *)
Definition chat_turn (user_input : string) (clf emo_clf : classifier)
    : exn + (string * option string) :=
  result ← analyze_and_respond user_input clf emo_clf;
  tip ← micro_boost user_input result;
  mret (res_reply result, tip).

End Engine.

(** A pipeline that answers every text with the one result [r]; used to
    run the engine on concrete classifier outputs. *)
Definition answering (r : ClassifierResult) : classifier := fun _ => [r].

Definition result_of (label : string) (score : float) : ClassifierResult :=
  {| cr_label := Some label; cr_score := Some score |}.

(** The hash of an interpreter started with [PYTHONHASHSEED=seed]. *)
Definition hash_of_seed (seed : Z) : string -> Z :=
  PyHash.py_str_hash (PyHash.secret_of_seed seed).

#[export] Instance exn_fmap : FMap (sum exn) := fun _ _ f m =>
  match m with
  | inl e => inl e
  | inr x => inr (f x)
  end.

(** The key that [build_emotion_specific_response] looks up. *)
Definition template_key (emotion : string) : string :=
  if bool_decide (emotion ∈ dom templates) then emotion else "neutral".

(** The values that [analyze_and_respond] and [classify_emotion] read
    from the two results (app.py, lines 138-139 and 94-95). *)
Definition sentiment_label (result : ClassifierResult) : string :=
  PyStr.upper (get (cr_label result) "NEUTRAL").

Definition sentiment_score (result : ClassifierResult) : float :=
  get (cr_score result) 0.5%float.

Definition emotion_label (r : ClassifierResult) : string :=
  PyStr.lower (get (cr_label r) "neutral").

Definition emotion_score (r : ClassifierResult) : float :=
  get (cr_score r) 0.5%float.

(** The emotion that the non-crisis branch of [analyze_and_respond] hands
    to [build_emotion_specific_response] (app.py, lines 147-152). *)
Definition routed_emotion (label emo_label : string) : string :=
  if (label =? "NEGATIVE")%string || bool_decide (emo_label ∈ negative_emotions) then emo_label
  else if (label =? "POSITIVE")%string || (emo_label =? "joy")%string then "joy"
  else "neutral".

(** The condition under which the chat loop shows a tip (app.py, line 221). *)
Definition tip_shown (crisis : bool) (label emo : string) : bool :=
  negb crisis && ((label =? "NEGATIVE")%string || bool_decide (emo ∈ negative_emotions)).

(** ** The chat history (app.py, lines 180-235)

    Streamlit runs the script from the top on every interaction.
    [st.session_state.messages] is the only state that the script keeps
    between two runs; the calls that only draw ([st.write], [st.caption],
    [st.toast], [st.error]) are left out.  The two pipelines are the ones
    that [load_sentiment_pipeline] and [load_emotion_pipeline] return. *)

(** One entry of [st.session_state.messages] *)
Record Message : Type := {
  role : string;
  content : string;
}.

Definition GREETING : Message :=
  {| role := "assistant";
     content := "Hi, I'm here to listen. What's on your mind today?" |}.

(** app.py, lines 181-184: [session] is [None] when the key
    [messages] is not in the session state yet. *)
Definition initial_messages (session : option (list Message)) : list Message :=
  match session with
  | Some messages => messages
  | None => [GREETING]
  end.

(** One run of the script: [user_input] is the value of [st.chat_input],
    [None] when nothing was submitted; the result is
    [st.session_state.messages] at the end of the run. *)
Definition rerun (hash : string -> Z) (clf emo_clf : classifier)
    (session : option (list Message)) (user_input : option string) : list Message :=
  let messages := initial_messages session in
  match user_input with
  | Some (String _ _ as text) =>
      let messages := (messages ++ [{| role := "user"; content := text |}])%list in
      match chat_turn hash text clf emo_clf with
      | inr (reply, _) => (messages ++ [{| role := "assistant"; content := reply |}])%list
      | inl _ => messages
      end
  | _ => messages
  end.

(** A conversation: the script run once for each value of [inputs], each
    run starting from the session state that the one before left. *)
Fixpoint conversation (hash : string -> Z) (clf emo_clf : classifier)
    (session : option (list Message)) (inputs : list (option string))
    : list Message :=
  match inputs with
  | [] => initial_messages session
  | user_input :: inputs' =>
      conversation hash clf emo_clf
        (Some (rerun hash clf emo_clf session user_input)) inputs'
  end.

(** The texts that a sequence of inputs submits: [if user_input:] lets
    neither [None] nor the empty text through. *)
Definition submitted (inputs : list (option string)) : list string :=
  omap (fun user_input =>
          match user_input with
          | Some (String _ _ as text) => Some text
          | _ => None
          end) inputs.

(** The messages that one submitted text adds to the history: the
    user's, and the reply unless the turn raised. *)
Definition turn_messages (hash : string -> Z) (clf emo_clf : classifier)
    (text : string) : list Message :=
  {| role := "user"; content := text |} ::
  match chat_turn hash text clf emo_clf with
  | inr (reply, _) => [{| role := "assistant"; content := reply |}]
  | inl _ => []
  end.

(** The texts of the user's messages of a history, in order. *)
Definition user_texts (messages : list Message) : list string :=
  content <$> filter (fun m => role m = "user") messages.

(** No ASCII upper-case letter occurs in [s]. *)
Definition no_upper (s : string) : bool :=
  PyStr.all_chars (fun c => negb (PyStr.is_ascii_upper c)) s.

(** Settle a decidable statement about concrete data, such as a
    non-membership in a list or a set of strings, by evaluating its
    decision procedure. *)
Ltac by_evaluation :=
  first [ apply (proj1 (bool_decide_eq_false _))
        | apply (proj1 (bool_decide_eq_true _)) ];
  vm_compute; reflexivity.

(** * Properties *)

(** ** Values of the model on concrete inputs *)

Example detect_crisis_end_my_life : detect_crisis "I want to END my life" = true.
Proof. reflexivity. Qed.

Example detect_crisis_inside_word : detect_crisis "spending it all" = true.
Proof. reflexivity. Qed.

Example detect_crisis_job : detect_crisis "I got the job!" = false.
Proof. reflexivity. Qed.

(** What CPython 3.11 prints for [hash("hello")] under [PYTHONHASHSEED]
    0, 1 and 2. *)
Example hash_hello_seed_0 : hash_of_seed 0 "hello" = -2096571579003691106.
Proof. vm_compute. reflexivity. Qed.

Example hash_hello_seed_1 : hash_of_seed 1 "hello" = -1712148659304476210.
Proof. vm_compute. reflexivity. Qed.

Example hash_hello_seed_2 : hash_of_seed 2 "hello" = -2276782357261739453.
Proof. vm_compute. reflexivity. Qed.

Example hash_empty (seed : Z) : hash_of_seed seed "" = 0.
Proof. reflexivity. Qed.

Example threshold_inclusive :
  build_empathetic_response "NEGATIVE" 0.7 "x" false = NEGATIVE_STRONG_REPLY
  /\ build_empathetic_response "NEGATIVE" 0.69 "x" false = NEGATIVE_MILD_REPLY.
Proof. split; reflexivity. Qed.

(** ** Strings *)

Section StringFacts.

Import PyStr.

Lemma startswith_app (p s : string) : startswith p (p +:+ s) = true.
Proof.
  induction p as [|a p IH]; simpl; [reflexivity|].
  now rewrite Ascii.eqb_refl.
Qed.

Lemma startswith_inv (p s : string) :
  startswith p s = true -> exists post, s = p +:+ post.
Proof.
  revert s; induction p as [|a p IH]; intros s H.
  - exists s; reflexivity.
  - destruct s as [|b s]; simpl in H; [discriminate|].
    destruct (Ascii.eqb_spec a b) as [->|]; [|discriminate].
    destruct (IH _ H) as [post ->]. exists post; reflexivity.
Qed.

Lemma startswith_contains (p s : string) :
  startswith p s = true -> contains p s = true.
Proof. intros H. destruct s; simpl; now rewrite H. Qed.

Lemma contains_app (pre p post : string) :
  contains p (pre +:+ p +:+ post) = true.
Proof.
  induction pre as [|c pre IH].
  - change (contains p (p +:+ post) = true).
    apply startswith_contains, startswith_app.
  - change (contains p (String c (pre +:+ p +:+ post)) = true).
    simpl. rewrite IH. apply orb_true_r.
Qed.

Lemma contains_inv (p s : string) :
  contains p s = true -> exists pre post, s = pre +:+ p +:+ post.
Proof.
  induction s as [|c s IH]; simpl; intros H.
  - rewrite orb_false_r in H. apply startswith_inv in H as [post ->].
    exists EmptyString, post; reflexivity.
  - apply orb_true_iff in H as [H|H].
    + apply startswith_inv in H as [post ->].
      exists EmptyString, post; reflexivity.
    + destruct (IH H) as (pre & post & ->).
      exists (String c pre), post; reflexivity.
Qed.

(** [p in s] holds exactly when [s] splits around an occurrence of [p]. *)
Lemma contains_spec (p s : string) :
  contains p s = true <-> exists pre post, s = pre +:+ p +:+ post.
Proof.
  split; [apply contains_inv|].
  intros (pre & post & ->). apply contains_app.
Qed.

Lemma occurs_app (c : ascii) (s1 s2 : string) :
  occurs c (s1 +:+ s2) = occurs c s1 || occurs c s2.
Proof.
  induction s1 as [|d s1 IH]; simpl; [reflexivity|].
  now rewrite IH, orb_assoc.
Qed.

(** The first character of a substring occurs in the string. *)
Lemma contains_head_occurs (c : ascii) (p s : string) :
  contains (String c p) s = true -> occurs c s = true.
Proof.
  intros H. apply contains_inv in H as (pre & post & ->).
  rewrite occurs_app. simpl. rewrite Ascii.eqb_refl. apply orb_true_r.
Qed.

Lemma all_chars_occurs (f : ascii -> bool) (c : ascii) (s : string) :
  all_chars f s = true -> occurs c s = true -> f c = true.
Proof.
  induction s as [|d s IH]; simpl; [discriminate|].
  intros Hall Hocc. apply andb_true_iff in Hall as [Hd Hs].
  apply orb_true_iff in Hocc as [Heq|Hocc]; [|now apply IH].
  apply Ascii.eqb_eq in Heq. now subst.
Qed.

Lemma lower_char_space (c : ascii) : is_space c = true -> lower_char c = c.
Proof.
  unfold lower_char, is_ascii_upper, is_space.
  destruct (N_of_ascii c) eqn:E; [reflexivity|]. intros H.
  destruct ((65 <=? N.pos p)%N && (N.pos p <=? 90)%N) eqn:U; [|reflexivity].
  exfalso. revert H U.
  rewrite orb_true_iff, !andb_true_iff, !N.leb_le. lia.
Qed.

(** Lower-casing leaves a text of white space as it is. *)
Lemma lower_spaces (s : string) : all_chars is_space s = true -> lower s = s.
Proof.
  induction s as [|c s IH]; simpl; [reflexivity|].
  intros H. apply andb_true_iff in H as [Hc Hs].
  unfold lower in *. simpl. now rewrite lower_char_space, IH.
Qed.

Lemma lower_char_not_upper (c : ascii) : is_ascii_upper (lower_char c) = false.
Proof.
  unfold lower_char. destruct (is_ascii_upper c) eqn:U; [|exact U].
  unfold is_ascii_upper in *.
  apply andb_true_iff in U as [U1 U2]. apply N.leb_le in U1, U2.
  rewrite N_ascii_embedding by lia.
  apply andb_false_iff. right. apply N.leb_gt. lia.
Qed.

Lemma lower_char_idem (c : ascii) : lower_char (lower_char c) = lower_char c.
Proof.
  unfold lower_char at 1. now rewrite lower_char_not_upper.
Qed.

(** [s.lower().lower() == s.lower()] *)
Lemma lower_idem (s : string) : lower (lower s) = lower s.
Proof.
  unfold lower. induction s as [|c s IH]; simpl; [reflexivity|].
  now rewrite lower_char_idem, IH.
Qed.

End StringFacts.

(** ** The crisis lexicon matcher *)

Section CrisisMatcher.

Import PyStr.

Lemma detect_crisis_true (text : string) :
  detect_crisis text = true <->
  exists term, term ∈ crisis_terms /\ contains term (lower text) = true.
Proof.
  unfold detect_crisis. rewrite existsb_exists.
  split; intros (term & Hin & Hc); exists term; split; trivial;
    now apply list_elem_of_In.
Qed.

(** No phrase of the lexicon starts with white space. *)
Lemma crisis_terms_head :
  Forall (fun term =>
            match term with
            | EmptyString => False
            | String c _ => is_space c = false
            end) crisis_terms.
Proof. unfold crisis_terms. repeat constructor. Qed.

Lemma detect_crisis_spaces (text : string) :
  all_chars is_space text = true -> detect_crisis text = false.
Proof.
  intros Hsp. destruct (detect_crisis text) eqn:E; [exfalso|reflexivity].
  apply detect_crisis_true in E as (term & Hin & Hc).
  rewrite (lower_spaces _ Hsp) in Hc.
  pose proof crisis_terms_head as Hh. rewrite Forall_forall in Hh.
  specialize (Hh term Hin). destruct term as [|c p]; [exact Hh|].
  apply contains_head_occurs in Hc.
  rewrite (all_chars_occurs _ _ _ Hsp Hc) in Hh. discriminate.
Qed.

Lemma lower_upper_char (c : ascii) : lower_char (upper_char c) = lower_char c.
Proof.
  unfold upper_char. destruct (is_ascii_lower c) eqn:L; [|reflexivity].
  unfold lower_char, is_ascii_upper, is_ascii_lower in *.
  apply andb_true_iff in L as [L1 L2]. apply N.leb_le in L1, L2.
  rewrite N_ascii_embedding by lia.
  replace ((65 <=? N_of_ascii c - 32)%N && (N_of_ascii c - 32 <=? 90)%N) with true
    by (symmetry; apply andb_true_iff; split; apply N.leb_le; lia).
  replace ((65 <=? N_of_ascii c)%N && (N_of_ascii c <=? 90)%N) with false
    by (symmetry; apply andb_false_iff; right; apply N.leb_gt; lia).
  replace (N_of_ascii c - 32 + 32)%N with (N_of_ascii c) by lia.
  apply ascii_N_embedding.
Qed.

Lemma lower_upper (s : string) : lower (upper s) = lower s.
Proof.
  unfold lower, upper. induction s as [|c s IH]; simpl; [reflexivity|].
  now rewrite lower_upper_char, IH.
Qed.

End CrisisMatcher.

Lemma detect_crisis_with_true (lower : string -> string) (text : string) :
  detect_crisis_with lower text = true <->
  exists term, term ∈ crisis_terms /\ PyStr.contains term (lower text) = true.
Proof.
  unfold detect_crisis_with. rewrite existsb_exists.
  split; intros (term & Hin & Hc); exists term; split; trivial;
    now apply list_elem_of_In.
Qed.

Lemma all_chars_impl (f g : ascii -> bool) (s : string) :
  (forall c, f c = true -> g c = true) ->
  PyStr.all_chars f s = true -> PyStr.all_chars g s = true.
Proof.
  intros Hfg. induction s as [|c s IH]; simpl; [reflexivity|].
  intros H. apply andb_true_iff in H as [Hc Hs].
  now rewrite (Hfg _ Hc), (IH Hs).
Qed.

Lemma spaces_ascii (s : string) :
  PyStr.all_chars PyStr.is_space s = true -> PyStr.is_ascii s = true.
Proof.
  apply all_chars_impl. intros c. unfold PyStr.is_space.
  rewrite orb_true_iff, !andb_true_iff, !N.leb_le, N.ltb_lt. lia.
Qed.

Lemma upper_char_ascii (c : ascii) :
  (N_of_ascii c <? 128)%N = true -> (N_of_ascii (PyStr.upper_char c) <? 128)%N = true.
Proof.
  unfold PyStr.upper_char. destruct (PyStr.is_ascii_lower c) eqn:L; [|trivial].
  unfold PyStr.is_ascii_lower in L.
  apply andb_true_iff in L as [L1 L2]. apply N.leb_le in L1, L2.
  rewrite N_ascii_embedding by lia. rewrite !N.ltb_lt. lia.
Qed.

Lemma upper_ascii (s : string) :
  PyStr.is_ascii s = true -> PyStr.is_ascii (PyStr.upper s) = true.
Proof.
  unfold PyStr.is_ascii, PyStr.upper. induction s as [|c s IH]; simpl; [reflexivity|].
  intros H. apply andb_true_iff in H as [Hc Hs].
  now rewrite (upper_char_ascii _ Hc), (IH Hs).
Qed.

(** On ASCII text the matcher with the builtin is [detect_crisis]. *)
Lemma detect_crisis_with_ascii (lower : string -> string) (text : string) :
  lowers_ascii lower -> PyStr.is_ascii text = true ->
  detect_crisis_with lower text = detect_crisis text.
Proof.
  intros Hl Ha. unfold detect_crisis_with, detect_crisis. now rewrite (Hl _ Ha).
Qed.

(** C2. For the builtin [lower], [detect_crisis] is [true] exactly when
    the lower-cased text splits around an occurrence of one of the
    phrases of the lexicon, so it is [false] on every text whose
    lower-casing contains none; two texts with the same lower-casing get
    the same answer, and so do an ASCII text and its upper-casing; a text
    made of white space only, the empty text among them, gives [false];
    and on ASCII text the answer is that of [detect_crisis]. *)
Theorem detect_crisis_spec (lower : string -> string) (text : string) :
  lowers_ascii lower ->
  (detect_crisis_with lower text = true <->
     exists term pre post,
       term ∈ crisis_terms /\ lower text = pre +:+ term +:+ post)
  /\ (forall text', lower text' = lower text ->
        detect_crisis_with lower text' = detect_crisis_with lower text)
  /\ (PyStr.is_ascii text = true ->
        detect_crisis_with lower (PyStr.upper text) = detect_crisis_with lower text)
  /\ (PyStr.all_chars PyStr.is_space text = true -> detect_crisis_with lower text = false)
  /\ (PyStr.is_ascii text = true -> detect_crisis_with lower text = detect_crisis text).
Proof.
  intros Hl. split; [|split; [|split; [|split]]].
  - rewrite detect_crisis_with_true. split.
    + intros (term & Hin & Hc). apply contains_spec in Hc as (pre & post & E).
      now exists term, pre, post.
    + intros (term & pre & post & Hin & E). exists term. split; [exact Hin|].
      apply contains_spec. now exists pre, post.
  - intros text' E. unfold detect_crisis_with. now rewrite E.
  - intros Ha.
    rewrite !(detect_crisis_with_ascii lower) by auto using upper_ascii.
    unfold detect_crisis. now rewrite lower_upper.
  - intros Hsp. rewrite (detect_crisis_with_ascii lower _ Hl (spaces_ascii _ Hsp)).
    now apply detect_crisis_spaces.
  - now apply detect_crisis_with_ascii.
Qed.

Lemma detect_crisis_spec_witness :
  detect_crisis "   " = false /\ detect_crisis "" = false
  /\ detect_crisis "I WANT TO END MY LIFE" = detect_crisis "I want to end my life".
Proof.
  assert (lowers_ascii PyStr.lower) as Hl by (intros s _; reflexivity).
  split; [|split].
  - apply (detect_crisis_spec PyStr.lower "   " Hl). reflexivity.
  - apply (detect_crisis_spec PyStr.lower "" Hl). reflexivity.
  - apply (detect_crisis_spec PyStr.lower "I want to end my life" Hl). reflexivity.
Defined.

(** Two texts outside ASCII, with what [str.lower] makes of them: the
    Kelvin sign U+212A lower-cases to k, the long s U+017F to itself. *)
Example detect_crisis_kelvin_sign (lower : string -> string) :
  lower "I want to Kill myself" = "i want to kill myself" ->
  detect_crisis_with lower "I want to Kill myself" = true.
Proof. intros H. unfold detect_crisis_with. rewrite H. reflexivity. Qed.

Example detect_crisis_long_s (lower : string -> string) :
  lower "ſuicide" = "ſuicide" -> detect_crisis_with lower "ſuicide" = false.
Proof. intros H. unfold detect_crisis_with. rewrite H. reflexivity. Qed.

(** ** Subscripts and [%] that cannot raise *)

Lemma list_getitem_in_range {A : Type} (l : list A) (i : Z) :
  0 <= i < len l ->
  exists x, l !! Z.to_nat i = Some x /\ list_getitem l i = inr x.
Proof.
  unfold len, list_getitem. intros [Hlo Hhi].
  destruct (lookup_lt_is_Some_2 l (Z.to_nat i)) as [x Hx]; [lia|].
  exists x. split; [exact Hx|].
  replace (i <? 0) with false by (symmetry; apply Z.ltb_ge; lia).
  replace (0 <=? i) with true by (symmetry; apply Z.leb_le; lia).
  replace (i <? Z.of_nat (length l)) with true by (symmetry; apply Z.ltb_lt; lia).
  simpl. now rewrite Hx.
Qed.

Lemma list_getitem_head {A : Type} (x : A) (l : list A) :
  list_getitem (x :: l) 0 = inr x.
Proof.
  destruct (list_getitem_in_range (x :: l) 0) as (y & Hy & ->).
  - unfold len. simpl length. lia.
  - simpl in Hy. congruence.
Qed.

Lemma bind_inr {A B : Type} (f : A -> exn + B) (x : A) : inr x ≫= f = f x.
Proof. reflexivity. Qed.

Lemma dict_getitem_Some {A : Type} (d : gmap string A) (k : string) (x : A) :
  d !! k = Some x -> dict_getitem d k = inr x.
Proof. unfold dict_getitem. now intros ->. Qed.

Lemma bind_inl {A B : Type} (f : A -> exn + B) (e : exn) : inl e ≫= f = inl e.
Proof. reflexivity. Qed.

Lemma py_mod_pos (a b : Z) :
  0 < b -> py_mod a b = inr (a mod b) /\ 0 <= a mod b < b.
Proof.
  intros Hb. unfold py_mod.
  replace (b =? 0) with false by (symmetry; apply Z.eqb_neq; lia).
  split; [reflexivity|]. now apply Z.mod_pos_bound.
Qed.

(** ** The template bank *)

Lemma templates_pairs (k : string) (choices : list string) :
  templates !! k = Some choices -> exists a b, choices = [a; b].
Proof.
  unfold templates. intros H. apply elem_of_list_to_map_2 in H.
  repeat (apply elem_of_cons in H as [H|H];
          [injection H as -> ->; eexists _, _; reflexivity|]).
  now apply elem_of_nil in H.
Qed.

Lemma templates_neutral : is_Some (templates !! "neutral").
Proof. vm_compute. eexists; reflexivity. Qed.

Section Selection.

Variable hash : string -> Z.

Lemma template_key_lookup (emotion : string) :
  is_Some (templates !! template_key emotion).
Proof.
  unfold template_key. case_bool_decide as H.
  - now apply elem_of_dom.
  - apply templates_neutral.
Qed.

Lemma build_emotion_specific_response_ok (emotion user_text : string) :
  exists choices reply,
    templates !! template_key emotion = Some choices
    /\ 0 <= Z.abs (hash user_text) mod len choices < len choices
    /\ choices !! Z.to_nat (Z.abs (hash user_text) mod len choices) = Some reply
    /\ build_emotion_specific_response hash emotion user_text = inr reply.
Proof.
  destruct (template_key_lookup emotion) as [choices Hc].
  destruct (templates_pairs _ _ Hc) as (a & b & ->).
  destruct (py_mod_pos (Z.abs (hash user_text)) (len [a; b])) as [Hm Hr];
    [unfold len; simpl; lia|].
  destruct (list_getitem_in_range [a; b] _ Hr) as (reply & Hl & Hg).
  exists [a; b], reply. repeat split; try tauto.
  unfold build_emotion_specific_response. fold (template_key emotion).
  rewrite (dict_getitem_Some _ _ _ Hc), bind_inr, Hm, bind_inr. exact Hg.
Qed.

End Selection.

(** ** The engine, once both pipelines have answered *)

Section EngineFacts.

Variable hash : string -> Z.

Lemma classify_emotion_head (text : string) (emo_clf : classifier) e es :
  emo_clf text = e :: es ->
  classify_emotion text emo_clf = inr (emotion_label e, emotion_score e).
Proof.
  intros H. unfold classify_emotion. now rewrite H, list_getitem_head, bind_inr.
Qed.

Lemma routed_reply (label emo_label text : string) :
  (if (label =? "NEGATIVE")%string || bool_decide (emo_label ∈ negative_emotions) then
     build_emotion_specific_response hash emo_label text
   else if (label =? "POSITIVE")%string || (emo_label =? "joy")%string then
     build_emotion_specific_response hash "joy" text
   else
     build_emotion_specific_response hash "neutral" text)
  = build_emotion_specific_response hash (routed_emotion label emo_label) text.
Proof.
  unfold routed_emotion.
  destruct ((label =? "NEGATIVE")%string || bool_decide (emo_label ∈ negative_emotions));
    [reflexivity|].
  now destruct ((label =? "POSITIVE")%string || (emo_label =? "joy")%string).
Qed.

Lemma negative_branch_iff (label emo_label : string) :
  (label =? "NEGATIVE")%string || bool_decide (emo_label ∈ negative_emotions) = true
  <-> label = "NEGATIVE" \/ emo_label ∈ negative_emotions.
Proof.
  rewrite orb_true_iff, String.eqb_eq, bool_decide_eq_true. reflexivity.
Qed.

(** With a crisis phrase in the text the reply is the crisis message. *)
Lemma analyze_and_respond_crisis (text : string) (clf emo_clf : classifier) s ss e es :
  detect_crisis text = true -> clf text = s :: ss -> emo_clf text = e :: es ->
  analyze_and_respond hash text clf emo_clf =
    inr {| res_label := sentiment_label s;
           res_score := sentiment_score s;
           res_emotion := emotion_label e;
           res_emotion_score := emotion_score e;
           res_crisis := true;
           res_reply := CRISIS_REPLY |}.
Proof.
  intros Hc Hs He. unfold analyze_and_respond.
  rewrite Hs, list_getitem_head, bind_inr, (classify_emotion_head _ _ _ _ He), bind_inr, Hc.
  reflexivity.
Qed.

(** Without one the reply comes from the template bank. *)
Lemma analyze_and_respond_calm (text : string) (clf emo_clf : classifier) s ss e es :
  detect_crisis text = false -> clf text = s :: ss -> emo_clf text = e :: es ->
  exists reply,
    build_emotion_specific_response hash
      (routed_emotion (sentiment_label s) (emotion_label e)) text = inr reply
    /\ analyze_and_respond hash text clf emo_clf =
         inr {| res_label := sentiment_label s;
                res_score := sentiment_score s;
                res_emotion := emotion_label e;
                res_emotion_score := emotion_score e;
                res_crisis := false;
                res_reply := reply |}.
Proof.
  intros Hc Hs He.
  destruct (build_emotion_specific_response_ok hash
              (routed_emotion (sentiment_label s) (emotion_label e)) text)
    as (choices & reply & _ & _ & _ & Hr).
  exists reply. split; [exact Hr|].
  unfold analyze_and_respond.
  rewrite Hs, list_getitem_head, bind_inr, (classify_emotion_head _ _ _ _ He), bind_inr, Hc.
  cbv beta iota zeta.
  fold (sentiment_label s). rewrite routed_reply, Hr. reflexivity.
Qed.

Lemma tips_length : len tips = 4.
Proof. reflexivity. Qed.

Lemma micro_boost_ok (text : string) (r : Response) :
  exists tip,
    tips !! Z.to_nat (Z.abs (hash text) mod len tips) = Some tip
    /\ micro_boost hash text r =
         inr (if tip_shown (res_crisis r) (res_label r) (res_emotion r)
              then Some tip else None).
Proof.
  destruct (py_mod_pos (Z.abs (hash text)) (len tips)) as [Hm Hr];
    [rewrite tips_length; lia|].
  destruct (list_getitem_in_range tips _ Hr) as (tip & Hl & Hg).
  exists tip. split; [exact Hl|].
  unfold micro_boost. fold (tip_shown (res_crisis r) (res_label r) (res_emotion r)).
  destruct (tip_shown _ _ _); [|reflexivity].
  now rewrite Hm, bind_inr, Hg, bind_inr.
Qed.

Lemma chat_turn_ok (text : string) (clf emo_clf : classifier) (r : Response) :
  analyze_and_respond hash text clf emo_clf = inr r ->
  exists tip,
    tips !! Z.to_nat (Z.abs (hash text) mod len tips) = Some tip
    /\ chat_turn hash text clf emo_clf =
         inr (res_reply r,
              if tip_shown (res_crisis r) (res_label r) (res_emotion r)
              then Some tip else None).
Proof.
  intros Hr. destruct (micro_boost_ok text r) as (tip & Hl & Hm).
  exists tip. split; [exact Hl|].
  unfold chat_turn. now rewrite Hr, bind_inr, Hm, bind_inr.
Qed.

End EngineFacts.

(** ** Crisis replies *)

(** C1. When the crisis detector fires on the text, the reply of
    [analyze_and_respond] is the fixed crisis message, whatever the
    sentiment label, the sentiment score and the emotion result are; the
    chat loop writes that message and shows no tip; and
    [build_empathetic_response] called with [crisis = True] returns it for
    every label and score. *)
Theorem crisis_reply_overrides
    (hash : string -> Z) (text : string) (clf emo_clf : classifier) s ss e es :
  detect_crisis text = true -> clf text = s :: ss -> emo_clf text = e :: es ->
  (exists r, analyze_and_respond hash text clf emo_clf = inr r
             /\ res_crisis r = true /\ res_reply r = CRISIS_REPLY)
  /\ chat_turn hash text clf emo_clf = inr (CRISIS_REPLY, None)
  /\ (forall label score, build_empathetic_response label score text true = CRISIS_REPLY).
Proof.
  intros Hc Hs He.
  pose proof (analyze_and_respond_crisis hash text clf emo_clf s ss e es Hc Hs He) as Hr.
  split; [|split].
  - eexists. split; [exact Hr|]. split; reflexivity.
  - destruct (chat_turn_ok hash text clf emo_clf _ Hr) as (tip & _ & ->). reflexivity.
  - reflexivity.
Qed.

Lemma crisis_reply_overrides_witness :
  chat_turn (hash_of_seed 0) "I can't go on anymore"
    (answering (result_of "NEGATIVE" 0.99)) (answering (result_of "sadness" 0.8))
  = inr (CRISIS_REPLY, None)
  /\ chat_turn (hash_of_seed 0) "Great day, but I want to end my life"
       (answering (result_of "POSITIVE" 0.99)) (answering (result_of "joy" 0.9))
     = inr (CRISIS_REPLY, None).
Proof.
  split.
  - eapply (crisis_reply_overrides (hash_of_seed 0) "I can't go on anymore");
      reflexivity.
  - eapply (crisis_reply_overrides (hash_of_seed 0) "Great day, but I want to end my life");
      reflexivity.
Defined.

(** C6. The crisis reply names emergency contacts: whatever sentiment and
    emotion results come with a text on which the crisis detector fires,
    the reply contains the emergency numbers 112/911/999, the 988 lifeline
    and the address of the international help-line directory. *)
Theorem crisis_reply_has_emergency_contact
    (hash : string -> Z) (text : string) (clf emo_clf : classifier) s ss e es :
  detect_crisis text = true -> clf text = s :: ss -> emo_clf text = e :: es ->
  exists r, analyze_and_respond hash text clf emo_clf = inr r
            /\ PyStr.contains "112/911/999" (res_reply r) = true
            /\ PyStr.contains "call/text 988" (res_reply r) = true
            /\ PyStr.contains "https://findahelpline.com/" (res_reply r) = true.
Proof.
  intros Hc Hs He. eexists. split.
  - apply (analyze_and_respond_crisis hash text clf emo_clf s ss e es Hc Hs He).
  - repeat split; vm_compute; reflexivity.
Qed.

Lemma crisis_reply_has_emergency_contact_witness :
  exists r,
    analyze_and_respond (hash_of_seed 0) "there is no reason to live"
      (answering (result_of "POSITIVE" 0.6)) (answering (result_of "joy" 0.7)) = inr r
    /\ PyStr.contains "112/911/999" (res_reply r) = true
    /\ PyStr.contains "call/text 988" (res_reply r) = true
    /\ PyStr.contains "https://findahelpline.com/" (res_reply r) = true.
Proof.
  eapply (crisis_reply_has_emergency_contact (hash_of_seed 0) "there is no reason to live");
    reflexivity.
Defined.

(** ** The sentiment score *)

(** C10. The reply does not depend on the sentiment score: two sentiment
    results with the same label and any two scores, present or missing,
    give the same reply (or the same exception, when the emotion pipeline
    gives none). *)
Theorem reply_independent_of_score
    (hash : string -> Z) (text : string) (clf1 clf2 emo_clf : classifier)
    (label : option string) (score1 score2 : option float) ss1 ss2 :
  clf1 text = {| cr_label := label; cr_score := score1 |} :: ss1 ->
  clf2 text = {| cr_label := label; cr_score := score2 |} :: ss2 ->
  res_reply <$> analyze_and_respond hash text clf1 emo_clf
  = res_reply <$> analyze_and_respond hash text clf2 emo_clf.
Proof.
  intros H1 H2. unfold analyze_and_respond.
  rewrite H1, H2, !list_getitem_head, !bind_inr.
  destruct (classify_emotion text emo_clf) as [err|[emo_label emo_score]];
    [reflexivity|].
  rewrite !bind_inr. cbv beta iota zeta.
  destruct (detect_crisis text); [reflexivity|].
  cbn [cr_label cr_score].
  rewrite routed_reply.
  destruct (build_emotion_specific_response hash _ text) as [err|reply]; reflexivity.
Qed.

Lemma reply_independent_of_score_witness :
  res_reply <$> analyze_and_respond (hash_of_seed 0) "work was rough today"
                  (answering (result_of "NEGATIVE" 0.95)) (answering (result_of "sadness" 0.8))
  = res_reply <$> analyze_and_respond (hash_of_seed 0) "work was rough today"
                    (answering {| cr_label := Some "NEGATIVE"; cr_score := None |})
                    (answering (result_of "sadness" 0.8)).
Proof.
  eapply (reply_independent_of_score (hash_of_seed 0) "work was rough today"); reflexivity.
Defined.

(** ** The coping tip *)

(** C7. The chat loop shows a tip exactly when the text has no crisis
    phrase and the sentiment label is NEGATIVE or the emotion label is one
    of sadness, anger, fear and disgust; the tip is then the entry of the
    tips list at index [abs(hash(text)) % len(tips)].  With a crisis
    phrase, and in the positive and neutral branches, there is none. *)
Theorem tip_iff_negative_non_crisis
    (hash : string -> Z) (text : string) (clf emo_clf : classifier) s ss e es :
  clf text = s :: ss -> emo_clf text = e :: es ->
  exists reply tip,
    chat_turn hash text clf emo_clf = inr (reply, tip)
    /\ (is_Some tip <->
          detect_crisis text = false
          /\ (sentiment_label s = "NEGATIVE" \/ emotion_label e ∈ negative_emotions))
    /\ (forall t, tip = Some t ->
          tips !! Z.to_nat (Z.abs (hash text) mod len tips) = Some t).
Proof.
  intros Hs He.
  assert (exists reply,
            analyze_and_respond hash text clf emo_clf =
              inr {| res_label := sentiment_label s;
                     res_score := sentiment_score s;
                     res_emotion := emotion_label e;
                     res_emotion_score := emotion_score e;
                     res_crisis := detect_crisis text;
                     res_reply := reply |}) as [reply Hr].
  { destruct (detect_crisis text) eqn:Hc.
    - eexists. now apply analyze_and_respond_crisis with (s := s) (ss := ss) (e := e) (es := es).
    - destruct (analyze_and_respond_calm hash text clf emo_clf s ss e es Hc Hs He)
        as (reply & _ & Hr). now exists reply. }
  destruct (chat_turn_ok hash text clf emo_clf _ Hr) as (tip & Hl & Ht).
  cbn [res_reply res_crisis res_label res_emotion] in Ht.
  eexists _, _. split; [exact Ht|]. unfold tip_shown. split.
  - destruct (detect_crisis text); cbn [negb andb].
    + split; [intros [? ?]; discriminate | intros [? _]; discriminate].
    + pose proof (negative_branch_iff (sentiment_label s) (emotion_label e)) as Hb.
      destruct (_ || _).
      * split; [intros _; split; [reflexivity|now apply Hb] | eauto].
      * split; [intros [? ?]; discriminate|].
        intros [_ Hn]. apply Hb in Hn. discriminate.
  - intros t. destruct (_ && _); [|discriminate]. now intros [= <-].
Qed.

Lemma tip_iff_negative_non_crisis_witness :
  exists reply tip,
    chat_turn (hash_of_seed 0) "I got the job!"
      (answering (result_of "POSITIVE" 0.95)) (answering (result_of "joy" 0.9))
    = inr (reply, tip)
    /\ (is_Some tip <->
          detect_crisis "I got the job!" = false
          /\ (sentiment_label (result_of "POSITIVE" 0.95) = "NEGATIVE"
              \/ emotion_label (result_of "joy" 0.9) ∈ negative_emotions))
    /\ (forall t, tip = Some t ->
          tips !! Z.to_nat (Z.abs (hash_of_seed 0 "I got the job!") mod len tips) = Some t).
Proof.
  eapply (tip_iff_negative_non_crisis (hash_of_seed 0) "I got the job!"); reflexivity.
Defined.

(** The two end-to-end scenarios, run with hash randomisation disabled. *)
Example scenario_positive :
  chat_turn (hash_of_seed 0) "I got the job!"
    (answering (result_of "POSITIVE" 0.95)) (answering (result_of "joy" 0.9))
  = inr ("That spark matters. What would help you keep this momentum for the next hour?",
         None).
Proof. vm_compute. reflexivity. Qed.

(** ** NEGATIVE sentiment without a crisis phrase *)

Lemma templates_dom :
  dom templates
  = ({[ "sadness"; "anger"; "fear"; "disgust"; "surprise"; "neutral"; "joy" ]} : gset string).
Proof. unfold templates. rewrite dom_list_to_map_L. simpl. set_solver. Qed.

(** The strong-negative reply is in no list of the template bank. *)
Lemma templates_not_strong (k : string) (choices : list string) :
  templates !! k = Some choices -> NEGATIVE_STRONG_REPLY ∉ choices.
Proof.
  unfold templates. intros H. apply elem_of_list_to_map_2 in H.
  repeat (apply elem_of_cons in H as [H|H];
          [injection H as -> ->; by_evaluation|]).
  now apply elem_of_nil in H.
Qed.

(** C3, as stated, fails: with no crisis phrase, label NEGATIVE and score
    0.8 the reply is a template of the emotion label, here neutral, and
    not the strong-negative reply. *)
Lemma negative_strong_counterexample :
  let text := "work was rough today" in
  let s := result_of "NEGATIVE" 0.8 in
  let e := result_of "neutral" 0.6 in
  detect_crisis text = false
  /\ sentiment_label s = "NEGATIVE"
  /\ (0.7 <=? sentiment_score s)%float = true
  /\ exists r,
       analyze_and_respond (hash_of_seed 0) text (answering s) (answering e) = inr r
       /\ templates !! "neutral" = Some [ "Thanks for sharing. I’m here with you. What’s one small action that could make the next hour a bit easier?"; res_reply r ]
       /\ res_reply r <> NEGATIVE_STRONG_REPLY.
Proof.
  cbv zeta. repeat split; try (vm_compute; reflexivity).
  eexists. split; [vm_compute; reflexivity|]. split; [vm_compute; reflexivity|].
  vm_compute. discriminate.
Qed.

(** C3, amended. With no crisis phrase and sentiment label NEGATIVE the
    reply of [analyze_and_respond] is, whatever the score, the one that
    [build_emotion_specific_response] selects for the emotion label, and
    never the strong-negative reply.  The strong-negative reply is what
    [build_empathetic_response] returns for [crisis = False], label
    NEGATIVE and a score of at least 0.7, the bound included; the engine
    calls that function only when [crisis] is true. *)
Theorem negative_sentiment_reply
    (hash : string -> Z) (text : string) (clf emo_clf : classifier) s ss e es :
  detect_crisis text = false -> clf text = s :: ss -> emo_clf text = e :: es ->
  sentiment_label s = "NEGATIVE" ->
  (exists r, analyze_and_respond hash text clf emo_clf = inr r
             /\ build_emotion_specific_response hash (emotion_label e) text
                = inr (res_reply r)
             /\ res_reply r <> NEGATIVE_STRONG_REPLY)
  /\ (forall score, (0.7 <=? score)%float = true ->
        build_empathetic_response "NEGATIVE" score text false = NEGATIVE_STRONG_REPLY)
  /\ build_empathetic_response "NEGATIVE" 0.7 text false = NEGATIVE_STRONG_REPLY.
Proof.
  intros Hc Hs He Hl. split; [|split].
  - destruct (analyze_and_respond_calm hash text clf emo_clf s ss e es Hc Hs He)
      as (reply & Hb & Hr).
    rewrite Hl in Hb. change (routed_emotion "NEGATIVE" (emotion_label e))
      with (emotion_label e) in Hb.
    eexists. split; [exact Hr|]. split; [exact Hb|]. cbn [res_reply].
    destruct (build_emotion_specific_response_ok hash (emotion_label e) text)
      as (choices & reply' & Hk & _ & Hi & Hb').
    assert (reply' = reply) as -> by congruence.
    intros ->. apply (templates_not_strong _ _ Hk).
    apply list_elem_of_lookup. eauto.
  - intros score H. unfold build_empathetic_response. cbn [String.eqb]. now rewrite H.
  - reflexivity.
Qed.

Lemma negative_sentiment_reply_witness :
  (exists r,
     analyze_and_respond (hash_of_seed 0) "work was rough today"
       (answering (result_of "negative" 0.8)) (answering (result_of "Sadness" 0.6)) = inr r
     /\ build_emotion_specific_response (hash_of_seed 0) "sadness" "work was rough today"
        = inr (res_reply r)
     /\ res_reply r <> NEGATIVE_STRONG_REPLY)
  /\ build_empathetic_response "NEGATIVE" 0.8 "work was rough today" false
     = NEGATIVE_STRONG_REPLY.
Proof.
  destruct (negative_sentiment_reply (hash_of_seed 0) "work was rough today"
              (answering (result_of "negative" 0.8)) (answering (result_of "Sadness" 0.6))
              (result_of "negative" 0.8) [] (result_of "Sadness" 0.6) [])
    as (H1 & H2 & _); try reflexivity.
  split; [exact H1|]. apply H2. reflexivity.
Defined.

(** C4, as stated, fails: with no crisis phrase, label NEGATIVE and the
    emotion surprise the reply is a surprise template and none of the
    neutral ones or the mild-negative reply. *)
Lemma negative_fallback_counterexample :
  let text := "I did not expect that at all" in
  let s := result_of "NEGATIVE" 0.8 in
  let e := result_of "surprise" 0.6 in
  detect_crisis text = false
  /\ sentiment_label s = "NEGATIVE"
  /\ (emotion_label e ∉ negative_emotions)
  /\ exists r neutral_choices,
       analyze_and_respond (hash_of_seed 0) text (answering s) (answering e) = inr r
       /\ templates !! "surprise" = Some [ res_reply r; "Unexpected moments can shake us. What’s one thing you know for sure right now?" ]
       /\ templates !! "neutral" = Some neutral_choices
       /\ (res_reply r ∉ neutral_choices)
       /\ res_reply r <> NEGATIVE_MILD_REPLY.
Proof.
  cbv zeta. repeat split; try (vm_compute; reflexivity).
  - by_evaluation.
  - eexists _, _. split; [vm_compute; reflexivity|].
    split; [vm_compute; reflexivity|]. split; [vm_compute; reflexivity|]. split.
    + by_evaluation.
    + vm_compute. discriminate.
Qed.

(** C4, amended. With no crisis phrase, sentiment label NEGATIVE and an
    emotion label outside sadness, anger, fear and disgust, the reply is
    taken from the template list of the emotion label itself when that
    label is surprise, joy or neutral, and from the neutral list when the
    label is none of the seven keys of the template bank. *)
Theorem negative_other_emotion_reply
    (hash : string -> Z) (text : string) (clf emo_clf : classifier) s ss e es :
  detect_crisis text = false -> clf text = s :: ss -> emo_clf text = e :: es ->
  sentiment_label s = "NEGATIVE" -> emotion_label e ∉ negative_emotions ->
  exists r choices,
    analyze_and_respond hash text clf emo_clf = inr r
    /\ templates !! (if bool_decide (emotion_label e ∈ ({[ "surprise"; "joy"; "neutral" ]} : gset string))
                     then emotion_label e else "neutral") = Some choices
    /\ res_reply r ∈ choices.
Proof.
  intros Hc Hs He Hl Hn.
  destruct (analyze_and_respond_calm hash text clf emo_clf s ss e es Hc Hs He)
    as (reply & Hb & Hr).
  rewrite Hl in Hb. change (routed_emotion "NEGATIVE" (emotion_label e))
    with (emotion_label e) in Hb.
  destruct (build_emotion_specific_response_ok hash (emotion_label e) text)
    as (choices & reply' & Hk & _ & Hi & Hb').
  assert (reply' = reply) as -> by congruence.
  exists {| res_label := sentiment_label s; res_score := sentiment_score s;
            res_emotion := emotion_label e; res_emotion_score := emotion_score e;
            res_crisis := false; res_reply := reply |}, choices.
  split; [exact Hr|]. split.
  - rewrite <- Hk. f_equal. unfold template_key. rewrite templates_dom.
    unfold negative_emotions in Hn.
    case_bool_decide as Hdom; case_bool_decide as Hrest; try reflexivity;
      exfalso; revert Hn Hdom Hrest;
      rewrite !elem_of_union, !elem_of_singleton; tauto.
  - apply list_elem_of_lookup. eauto.
Qed.

Lemma negative_other_emotion_reply_witness :
  exists r choices,
    analyze_and_respond (hash_of_seed 0) "I did not expect that at all"
      (answering (result_of "NEGATIVE" 0.8)) (answering (result_of "confusion" 0.6)) = inr r
    /\ templates !! "neutral" = Some choices
    /\ res_reply r ∈ choices.
Proof.
  destruct (negative_other_emotion_reply (hash_of_seed 0) "I did not expect that at all"
              (answering (result_of "NEGATIVE" 0.8)) (answering (result_of "confusion" 0.6))
              (result_of "NEGATIVE" 0.8) [] (result_of "confusion" 0.6) [])
    as (r & choices & Hr & Hk & Hin); try reflexivity.
  - by_evaluation.
  - exists r, choices. split; [exact Hr|]. split; [exact Hk|exact Hin].
Defined.

(** ** One turn of the chat loop in closed form *)

Section ChatTurn.

Variable hash : string -> Z.

Lemma chat_turn_closed (text : string) (clf emo_clf : classifier) s ss e es :
  clf text = s :: ss -> emo_clf text = e :: es ->
  exists r tip,
    analyze_and_respond hash text clf emo_clf = inr r
    /\ res_label r = sentiment_label s /\ res_score r = sentiment_score s
    /\ res_emotion r = emotion_label e /\ res_emotion_score r = emotion_score e
    /\ res_crisis r = detect_crisis text
    /\ (if detect_crisis text then inr CRISIS_REPLY
        else build_emotion_specific_response hash
               (routed_emotion (sentiment_label s) (emotion_label e)) text)
       = inr (res_reply r)
    /\ tips !! Z.to_nat (Z.abs (hash text) mod len tips) = Some tip
    /\ chat_turn hash text clf emo_clf =
         inr (res_reply r,
              if tip_shown (detect_crisis text) (sentiment_label s) (emotion_label e)
              then Some tip else None).
Proof.
  intros Hs He. destruct (detect_crisis text) eqn:Hc.
  - pose proof (analyze_and_respond_crisis hash text clf emo_clf s ss e es Hc Hs He) as Hr.
    destruct (chat_turn_ok hash text clf emo_clf _ Hr) as (tip & Hl & Ht).
    eexists _, tip. split; [exact Hr|]. cbn [res_label res_score res_emotion
      res_emotion_score res_crisis res_reply] in *. now rewrite Ht.
  - destruct (analyze_and_respond_calm hash text clf emo_clf s ss e es Hc Hs He)
      as (reply & Hb & Hr).
    destruct (chat_turn_ok hash text clf emo_clf _ Hr) as (tip & Hl & Ht).
    eexists _, tip. split; [exact Hr|]. cbn [res_label res_score res_emotion
      res_emotion_score res_crisis res_reply] in *. now rewrite Ht.
Qed.

(** The reply depends on the emotion through the looked-up key only. *)
Lemma build_emotion_specific_response_key (emotion1 emotion2 text : string) :
  template_key emotion1 = template_key emotion2 ->
  build_emotion_specific_response hash emotion1 text
  = build_emotion_specific_response hash emotion2 text.
Proof.
  intros H. unfold build_emotion_specific_response.
  fold (template_key emotion1). fold (template_key emotion2). now rewrite H.
Qed.

End ChatTurn.

Lemma negative_emotions_known (emo : string) :
  emo ∈ negative_emotions -> emo ∈ dom templates.
Proof.
  rewrite templates_dom. unfold negative_emotions.
  rewrite !elem_of_union, !elem_of_singleton. tauto.
Qed.

Lemma joy_known : "joy" ∈ dom templates.
Proof.
  rewrite templates_dom, !elem_of_union, !elem_of_singleton. tauto.
Qed.

Lemma neutral_not_negative : "neutral" ∉ negative_emotions.
Proof. by_evaluation. Qed.

Lemma routed_emotion_unknown_label (label emo : string) :
  label <> "NEGATIVE" -> label <> "POSITIVE" ->
  routed_emotion label emo = routed_emotion "NEUTRAL" emo.
Proof.
  intros Hn Hp. unfold routed_emotion.
  apply String.eqb_neq in Hn, Hp. rewrite Hn, Hp. reflexivity.
Qed.

Lemma routed_emotion_unknown_emotion (label emo : string) :
  emo ∉ dom templates ->
  template_key (routed_emotion label emo) = template_key (routed_emotion label "neutral").
Proof.
  intros Hu. unfold routed_emotion.
  rewrite (bool_decide_eq_false_2 (emo ∈ negative_emotions))
    by (intros H; apply Hu, negative_emotions_known, H).
  rewrite (bool_decide_eq_false_2 _ neutral_not_negative).
  replace (emo =? "joy")%string with false
    by (symmetry; apply String.eqb_neq; intros ->; apply Hu, joy_known).
  change ("neutral" =? "joy")%string with false.
  destruct (label =? "NEGATIVE")%string; [|reflexivity].
  cbn [orb]. unfold template_key at 1. now rewrite (bool_decide_eq_false_2 _ Hu).
Qed.

(** ** Determinism *)

(** C5, as stated, fails: two interpreters, started with
    [PYTHONHASHSEED] 1 and 2, answer the same text and the same classifier
    results with different replies and different tips. *)
Lemma determinism_across_restarts_counterexample :
  let text := "work was rough today" in
  let clf := answering (result_of "NEGATIVE" 0.8) in
  let emo_clf := answering (result_of "sadness" 0.6) in
  chat_turn (hash_of_seed 1) text clf emo_clf
  = inr ("It sounds really heavy. It's okay to feel sad. A tiny step like writing down one worry or taking a 2‑minute stretch can help. What feels smallest to try?",
         Some "Grounding: name 5 things you can see right now.")
  /\ chat_turn (hash_of_seed 2) text clf emo_clf
     = inr ("I’m hearing a lot of weight in this. You deserve gentleness right now. Could a short break with some music or a warm drink help even 1%?",
            Some "Micro‑action: sip water and roll your shoulders.")
  /\ chat_turn (hash_of_seed 1) text clf emo_clf <> chat_turn (hash_of_seed 2) text clf emo_clf.
Proof.
  cbv zeta. split; [vm_compute; reflexivity|]. split; [vm_compute; reflexivity|].
  vm_compute. discriminate.
Qed.

(** C5, amended. The result depends on the interpreter only through the
    value of [hash(text)]: two runs whose hash of the text agree, two calls
    in one process among them, return the same result dict, the same reply
    and the same tip for identical arguments. *)
Theorem deterministic_for_equal_hash
    (hash1 hash2 : string -> Z) (text : string) (clf emo_clf : classifier) :
  hash1 text = hash2 text ->
  analyze_and_respond hash1 text clf emo_clf = analyze_and_respond hash2 text clf emo_clf
  /\ chat_turn hash1 text clf emo_clf = chat_turn hash2 text clf emo_clf.
Proof.
  intros H.
  assert (analyze_and_respond hash1 text clf emo_clf
          = analyze_and_respond hash2 text clf emo_clf) as Ha.
  { unfold analyze_and_respond, build_emotion_specific_response. now rewrite H. }
  split; [exact Ha|].
  unfold chat_turn, micro_boost. now rewrite Ha, H.
Qed.

Lemma deterministic_for_equal_hash_witness :
  chat_turn (hash_of_seed 1) "" (answering (result_of "NEGATIVE" 0.8))
    (answering (result_of "sadness" 0.6))
  = chat_turn (hash_of_seed 2) "" (answering (result_of "NEGATIVE" 0.8))
      (answering (result_of "sadness" 0.6)).
Proof.
  apply (deterministic_for_equal_hash (hash_of_seed 1) (hash_of_seed 2) "").
  reflexivity.
Defined.

(** ** Selection *)

(** C9. Every list of the template bank and the tips list are non-empty;
    for every text the index [abs(hash(text)) % len(candidates)] is
    computed without an exception and lies in [0, len(candidates)); the
    subscript with it does not raise; the reply of
    [build_emotion_specific_response] is an element of the list of the
    looked-up key, the tip an element of the tips list; and without a
    crisis phrase the reply of [analyze_and_respond] is an element of the
    list of the routed emotion. *)
Theorem selection_in_range (hash : string -> Z) :
  (forall key choices, templates !! key = Some choices -> choices <> [])
  /\ tips <> []
  /\ (forall emotion text, exists choices idx reply,
        templates !! template_key emotion = Some choices
        /\ py_mod (Z.abs (hash text)) (len choices) = inr idx
        /\ 0 <= idx < len choices
        /\ list_getitem choices idx = inr reply
        /\ reply ∈ choices
        /\ build_emotion_specific_response hash emotion text = inr reply)
  /\ (forall text, exists idx tip,
        py_mod (Z.abs (hash text)) (len tips) = inr idx
        /\ 0 <= idx < len tips
        /\ list_getitem tips idx = inr tip
        /\ tip ∈ tips)
  /\ (forall text clf emo_clf s ss e es,
        detect_crisis text = false -> clf text = s :: ss -> emo_clf text = e :: es ->
        exists r choices,
          analyze_and_respond hash text clf emo_clf = inr r
          /\ templates !! template_key (routed_emotion (sentiment_label s) (emotion_label e))
             = Some choices
          /\ res_reply r ∈ choices).
Proof.
  split; [|split; [|split; [|split]]].
  - intros key choices H. destruct (templates_pairs _ _ H) as (a & b & ->). discriminate.
  - discriminate.
  - intros emotion text.
    destruct (build_emotion_specific_response_ok hash emotion text)
      as (choices & reply & Hk & Hr & Hi & Hb).
    destruct (templates_pairs _ _ Hk) as (a & b & ->).
    destruct (py_mod_pos (Z.abs (hash text)) (len [a; b])) as [Hm _];
      [unfold len; simpl; lia|].
    destruct (list_getitem_in_range [a; b] _ Hr) as (reply' & Hi' & Hg).
    assert (reply' = reply) as -> by congruence.
    exists [a; b], (Z.abs (hash text) mod len [a; b]), reply.
    repeat split; try tauto. apply list_elem_of_lookup. eauto.
  - intros text.
    destruct (py_mod_pos (Z.abs (hash text)) (len tips)) as [Hm Hr];
      [rewrite tips_length; lia|].
    destruct (list_getitem_in_range tips _ Hr) as (tip & Hl & Hg).
    exists (Z.abs (hash text) mod len tips), tip.
    repeat split; try tauto. apply list_elem_of_lookup. eauto.
  - intros text clf emo_clf s ss e es Hc Hs He.
    destruct (analyze_and_respond_calm hash text clf emo_clf s ss e es Hc Hs He)
      as (reply & Hb & Hr).
    destruct (build_emotion_specific_response_ok hash
                (routed_emotion (sentiment_label s) (emotion_label e)) text)
      as (choices & reply' & Hk & _ & Hi & Hb').
    assert (reply' = reply) as -> by congruence.
    eexists _, choices. split; [exact Hr|]. split; [exact Hk|].
    apply list_elem_of_lookup. eauto.
Qed.

Lemma selection_in_range_witness :
  let text := "I got the job!" in
  (exists r choices,
     analyze_and_respond (hash_of_seed 0) text
       (answering (result_of "POSITIVE" 0.95)) (answering (result_of "joy" 0.9)) = inr r
     /\ templates !! "joy" = Some choices
     /\ res_reply r ∈ choices)
  /\ exists idx tip,
       py_mod (Z.abs (hash_of_seed 0 text)) (len tips) = inr idx
       /\ 0 <= idx < len tips
       /\ list_getitem tips idx = inr tip
       /\ tip ∈ tips.
Proof.
  cbv zeta.
  destruct (selection_in_range (hash_of_seed 0)) as (_ & _ & _ & Htip & Hreply).
  split; [|apply Htip].
  destruct (Hreply "I got the job!"
              (answering (result_of "POSITIVE" 0.95)) (answering (result_of "joy" 0.9))
              (result_of "POSITIVE" 0.95) [] (result_of "joy" 0.9) [] eq_refl eq_refl eq_refl)
    as (r & choices & Hr & Hk & Hin).
  exists r, choices. split; [exact Hr|]. split; [exact Hk|exact Hin].
Defined.

(** * Further properties of the code *)

(** ** More on strings *)

Lemma app_assoc_string (a b c : string) : (a +:+ b) +:+ c = a +:+ (b +:+ c).
Proof.
  induction a as [|x a IH]; [reflexivity|].
  change (String x ((a +:+ b) +:+ c) = String x (a +:+ (b +:+ c))). now rewrite IH.
Qed.

Lemma map_chars_app (f : ascii -> ascii) (a b : string) :
  PyStr.map_chars f (a +:+ b) = PyStr.map_chars f a +:+ PyStr.map_chars f b.
Proof.
  induction a as [|x a IH]; [reflexivity|].
  change (String (f x) (PyStr.map_chars f (a +:+ b))
          = String (f x) (PyStr.map_chars f a +:+ PyStr.map_chars f b)).
  now rewrite IH.
Qed.

Lemma lower_app (a b : string) :
  PyStr.lower (a +:+ b) = PyStr.lower a +:+ PyStr.lower b.
Proof. apply map_chars_app. Qed.

Lemma contains_context (p pre s post : string) :
  PyStr.contains p s = true -> PyStr.contains p (pre +:+ s +:+ post) = true.
Proof.
  intros H. apply contains_inv in H as (a & b & ->).
  replace (pre +:+ (a +:+ p +:+ b) +:+ post) with ((pre +:+ a) +:+ p +:+ (b +:+ post))
    by now rewrite !app_assoc_string.
  apply contains_app.
Qed.

Lemma app_empty_string (p : string) : p +:+ EmptyString = p.
Proof.
  induction p as [|c p IH]; [reflexivity|].
  change (String c (p +:+ EmptyString) = String c p). now rewrite IH.
Qed.

Lemma contains_refl (p : string) : PyStr.contains p p = true.
Proof.
  apply contains_spec. exists EmptyString, EmptyString.
  change (p = p +:+ EmptyString). now rewrite app_empty_string.
Qed.

Lemma upper_lower_char (c : ascii) :
  PyStr.upper_char (PyStr.lower_char c) = PyStr.upper_char c.
Proof.
  unfold PyStr.lower_char. destruct (PyStr.is_ascii_upper c) eqn:U; [|reflexivity].
  unfold PyStr.upper_char, PyStr.is_ascii_lower, PyStr.is_ascii_upper in *.
  apply andb_true_iff in U as [U1 U2]. apply N.leb_le in U1, U2.
  rewrite N_ascii_embedding by lia.
  replace ((97 <=? N_of_ascii c + 32)%N && (N_of_ascii c + 32 <=? 122)%N) with true
    by (symmetry; apply andb_true_iff; split; apply N.leb_le; lia).
  replace ((97 <=? N_of_ascii c)%N && (N_of_ascii c <=? 122)%N) with false
    by (symmetry; apply andb_false_iff; left; apply N.leb_gt; lia).
  replace (N_of_ascii c + 32 - 32)%N with (N_of_ascii c) by lia.
  apply ascii_N_embedding.
Qed.

Lemma upper_lower (s : string) : PyStr.upper (PyStr.lower s) = PyStr.upper s.
Proof.
  unfold PyStr.lower, PyStr.upper. induction s as [|c s IH]; simpl; [reflexivity|].
  now rewrite upper_lower_char, IH.
Qed.

Lemma lower_no_upper (s : string) : no_upper (PyStr.lower s) = true.
Proof.
  unfold no_upper, PyStr.lower. induction s as [|c s IH]; simpl; [reflexivity|].
  now rewrite lower_char_not_upper, IH.
Qed.

Lemma no_upper_lower (s : string) : no_upper s = true -> PyStr.lower s = s.
Proof.
  unfold no_upper, PyStr.lower. induction s as [|c s IH]; simpl; [reflexivity|].
  intros H. apply andb_true_iff in H as [Hc Hs]. rewrite (IH Hs).
  unfold PyStr.lower_char. apply negb_true_iff in Hc. now rewrite Hc.
Qed.

(** ** The crisis matcher under context and letter case *)

(** X1. Text around a flagged passage never clears the flag: when
    [detect_crisis] fires on a text it fires on every text that contains
    it. *)
Theorem detect_crisis_monotone (pre text post : string) :
  detect_crisis text = true -> detect_crisis (pre +:+ text +:+ post) = true.
Proof.
  intros H. apply detect_crisis_true in H as (term & Hin & Hc).
  apply detect_crisis_true. exists term. split; [exact Hin|].
  rewrite !lower_app. now apply contains_context.
Qed.

Lemma detect_crisis_monotone_witness :
  detect_crisis "Honestly? I want to end my life. Sorry." = true.
Proof.
  apply (detect_crisis_monotone "Honestly? " "I want to end my life" ". Sorry.").
  reflexivity.
Defined.

(** X2. A phrase of the lexicon is found in any mix of upper and lower
    case and anywhere in the text, also inside a longer word. *)
Theorem detect_crisis_phrase_any_case (term spelling pre post : string) :
  term ∈ crisis_terms -> PyStr.lower spelling = term ->
  detect_crisis (pre +:+ spelling +:+ post) = true.
Proof.
  intros Hin Hl. apply detect_crisis_true. exists term. split; [exact Hin|].
  rewrite !lower_app, Hl. apply contains_context, contains_refl.
Qed.

Lemma detect_crisis_phrase_any_case_witness :
  detect_crisis "xxSelf-HARMyy" = true.
Proof.
  apply (detect_crisis_phrase_any_case "self-harm" "Self-HARM" "xx" "yy");
    [by_evaluation | reflexivity].
Defined.

(** ** The branches of [build_empathetic_response] *)

Lemma empathetic_replies_distinct :
  CRISIS_REPLY <> NEGATIVE_STRONG_REPLY /\ CRISIS_REPLY <> NEGATIVE_MILD_REPLY
  /\ CRISIS_REPLY <> POSITIVE_REPLY /\ CRISIS_REPLY <> NEUTRAL_REPLY
  /\ NEGATIVE_STRONG_REPLY <> NEGATIVE_MILD_REPLY /\ NEGATIVE_STRONG_REPLY <> POSITIVE_REPLY
  /\ NEGATIVE_STRONG_REPLY <> NEUTRAL_REPLY /\ NEGATIVE_MILD_REPLY <> POSITIVE_REPLY
  /\ NEGATIVE_MILD_REPLY <> NEUTRAL_REPLY /\ POSITIVE_REPLY <> NEUTRAL_REPLY.
Proof. repeat split; vm_compute; discriminate. Qed.

(** X3. The five replies of [build_empathetic_response] are different
    texts, and each tells the branch that produced it: the crisis message
    exactly for [crisis = True]; otherwise the strong-negative reply
    exactly for label NEGATIVE with [score >= 0.7], the mild one exactly
    for NEGATIVE when [score >= 0.7] is false (a lower score or a NaN),
    the positive one exactly for POSITIVE, and the neutral one exactly
    for every other label.  The label is compared as it is, letter case
    included. *)
Theorem build_empathetic_response_branches
    (label : string) (score : float) (user_text : string) (crisis : bool) :
  let reply := build_empathetic_response label score user_text crisis in
  (reply = CRISIS_REPLY <-> crisis = true)
  /\ (reply = NEGATIVE_STRONG_REPLY <->
        crisis = false /\ label = "NEGATIVE" /\ (0.7 <=? score)%float = true)
  /\ (reply = NEGATIVE_MILD_REPLY <->
        crisis = false /\ label = "NEGATIVE" /\ (0.7 <=? score)%float = false)
  /\ (reply = POSITIVE_REPLY <-> crisis = false /\ label = "POSITIVE")
  /\ (reply = NEUTRAL_REPLY <->
        crisis = false /\ label <> "NEGATIVE" /\ label <> "POSITIVE").
Proof.
  cbv zeta. unfold build_empathetic_response.
  destruct empathetic_replies_distinct as (? & ? & ? & ? & ? & ? & ? & ? & ? & ?).
  destruct crisis;
    [| destruct (String.eqb_spec label "NEGATIVE") as [->|Hn];
       [ destruct (0.7 <=? score)%float
       | destruct (String.eqb_spec label "POSITIVE") as [->|Hp] ] ];
    repeat split; intros; try congruence; intuition congruence.
Qed.

(** ** [classify_emotion] *)

Lemma list_getitem_nil {A : Type} (i : Z) : list_getitem (@nil A) i = inl IndexError.
Proof.
  unfold list_getitem. simpl length. change (Z.of_nat 0) with 0.
  destruct (i <? 0) eqn:E.
  - replace (0 <=? i + 0) with false by (symmetry; apply Z.leb_gt; lia). reflexivity.
  - replace (i <? 0) with false by (symmetry; assumption).
    now rewrite andb_false_r.
Qed.

Lemma classify_emotion_nil (text : string) (emo_clf : classifier) :
  emo_clf text = [] -> classify_emotion text emo_clf = inl IndexError.
Proof. intros H. unfold classify_emotion. now rewrite H, list_getitem_nil. Qed.

(** X4. [classify_emotion] raises exactly when the emotion pipeline
    returns an empty list, and then it is an [IndexError]. *)
Theorem classify_emotion_raises (text : string) (emo_clf : classifier) (err : exn) :
  classify_emotion text emo_clf = inl err <-> emo_clf text = [] /\ err = IndexError.
Proof.
  destruct (emo_clf text) as [|e es] eqn:E.
  - rewrite (classify_emotion_nil _ _ E). split.
    + intros [= <-]. now split.
    + intros [_ ->]. reflexivity.
  - rewrite (classify_emotion_head _ _ _ _ E). split; [discriminate|].
    intros [? _]; discriminate.
Qed.

(** X5. The label that [classify_emotion] returns has no upper-case
    ASCII letter, whatever the pipeline reported, and lower-casing it
    again changes nothing. *)
Theorem classify_emotion_label_lower
    (text : string) (emo_clf : classifier) (emo_label : string) (emo_score : float) :
  classify_emotion text emo_clf = inr (emo_label, emo_score) ->
  no_upper emo_label = true /\ PyStr.lower emo_label = emo_label.
Proof.
  intros H. destruct (emo_clf text) as [|e es] eqn:E.
  - rewrite (classify_emotion_nil _ _ E) in H. discriminate.
  - rewrite (classify_emotion_head _ _ _ _ E) in H. injection H as <- <-.
    unfold emotion_label. split; [apply lower_no_upper|apply lower_idem].
Qed.

Lemma classify_emotion_label_lower_witness :
  no_upper "sadness" = true /\ PyStr.lower "sadness" = "sadness".
Proof.
  apply (classify_emotion_label_lower "so tired" (answering (result_of "SADNESS" 0.9))
           "sadness" 0.9%float).
  reflexivity.
Defined.

(** ** The template table *)

Lemma templates_entries (k : string) (choices : list string) :
  templates !! k = Some choices ->
  (k, choices) ∈ map_to_list templates.
Proof. apply elem_of_map_to_list. Qed.

(** The crisis message and the fourteen templates are fifteen different
    texts. *)
Lemma replies_distinct :
  NoDup (CRISIS_REPLY :: (map_to_list templates).*2 ≫= id).
Proof. by_evaluation. Qed.

Lemma templates_not_crisis (k : string) (choices : list string) :
  templates !! k = Some choices -> CRISIS_REPLY ∉ choices.
Proof.
  intros H Hin. pose proof replies_distinct as Hd.
  apply NoDup_cons in Hd as [Hd _]. apply Hd.
  apply list_elem_of_bind. exists choices. split; [exact Hin|].
  apply list_elem_of_fmap. exists (k, choices). split; [reflexivity|].
  now apply elem_of_map_to_list.
Qed.

(** A template belongs to one key only. *)
Lemma template_owner (k1 k2 : string) (c1 c2 : list string) (x : string) :
  templates !! k1 = Some c1 -> templates !! k2 = Some c2 ->
  x ∈ c1 -> x ∈ c2 -> k1 = k2.
Proof.
  unfold templates. intros H1 H2.
  apply elem_of_list_to_map_2 in H1, H2.
  repeat (apply elem_of_cons in H1 as [H1|H1]; [injection H1 as -> ->|]);
    try (now apply elem_of_nil in H1);
    (repeat (apply elem_of_cons in H2 as [H2|H2]; [injection H2 as -> ->|]);
     try (now apply elem_of_nil in H2));
    try reflexivity; intros Hx1 Hx2; exfalso;
    repeat (apply elem_of_cons in Hx1 as [->|Hx1]);
    try (now apply elem_of_nil in Hx1);
    revert Hx2; by_evaluation.
Qed.

Lemma templates_keys_lower (k : string) :
  k ∈ dom templates -> no_upper k = true.
Proof.
  rewrite templates_dom, !elem_of_union, !elem_of_singleton.
  intros H. repeat destruct H as [H|H]; subst k; reflexivity.
Qed.

Lemma abs_mod_2 (h : Z) : Z.abs h mod 2 = if Z.even h then 0 else 1.
Proof.
  rewrite Zmod_even. destruct (Z.abs_eq_or_opp h) as [->| ->]; [reflexivity|].
  now rewrite Z.even_opp.
Qed.

(** X6. [build_emotion_specific_response] returns the first template of
    the looked-up list when [hash(user_text)] is even and the second when
    it is odd; the sign of the hash plays no part. *)
Theorem variant_by_parity (hash : string -> Z) (emotion user_text : string) :
  exists first second,
    templates !! template_key emotion = Some [first; second]
    /\ build_emotion_specific_response hash emotion user_text
       = inr (if Z.even (hash user_text) then first else second).
Proof.
  destruct (build_emotion_specific_response_ok hash emotion user_text)
    as (choices & reply & Hk & _ & Hi & Hb).
  destruct (templates_pairs _ _ Hk) as (a & b & ->).
  exists a, b. split; [exact Hk|]. rewrite Hb. f_equal.
  change (len [a; b]) with 2 in Hi. rewrite abs_mod_2 in Hi.
  destruct (Z.even (hash user_text)); simpl in Hi; congruence.
Qed.

(** X7. The table is looked up with the emotion as it is given: an
    emotion with an upper-case ASCII letter is in no key and is answered
    from the neutral list. *)
Theorem emotion_lookup_case_sensitive (hash : string -> Z) (emotion user_text : string) :
  no_upper emotion = false ->
  build_emotion_specific_response hash emotion user_text
  = build_emotion_specific_response hash "neutral" user_text.
Proof.
  intros Hu. apply build_emotion_specific_response_key.
  unfold template_key at 1. case_bool_decide as Hd; [|reflexivity].
  apply templates_keys_lower in Hd. congruence.
Qed.

Lemma emotion_lookup_case_sensitive_witness :
  build_emotion_specific_response (hash_of_seed 0) "Sadness" "so tired"
  = build_emotion_specific_response (hash_of_seed 0) "neutral" "so tired".
Proof.
  apply (emotion_lookup_case_sensitive (hash_of_seed 0) "Sadness" "so tired").
  reflexivity.
Defined.

(** ** Exceptions of the engine *)

Lemma analyze_and_respond_no_sentiment
    (hash : string -> Z) (text : string) (clf emo_clf : classifier) :
  clf text = [] -> analyze_and_respond hash text clf emo_clf = inl IndexError.
Proof. intros H. unfold analyze_and_respond. now rewrite H, list_getitem_nil. Qed.

Lemma analyze_and_respond_no_emotion
    (hash : string -> Z) (text : string) (clf emo_clf : classifier) :
  emo_clf text = [] -> analyze_and_respond hash text clf emo_clf = inl IndexError.
Proof.
  intros H. unfold analyze_and_respond.
  destruct (clf text) as [|s ss]; [now rewrite list_getitem_nil|].
  now rewrite list_getitem_head, bind_inr, (classify_emotion_nil _ _ H).
Qed.

(** The engine in the three cases of what the pipelines return. *)
Lemma analyze_and_respond_cases
    (hash : string -> Z) (text : string) (clf emo_clf : classifier) :
  ((clf text = [] \/ emo_clf text = [])
   /\ analyze_and_respond hash text clf emo_clf = inl IndexError
   /\ chat_turn hash text clf emo_clf = inl IndexError)
  \/ (exists s ss e es r tip,
        clf text = s :: ss /\ emo_clf text = e :: es
        /\ analyze_and_respond hash text clf emo_clf = inr r
        /\ chat_turn hash text clf emo_clf = inr (res_reply r, tip)).
Proof.
  destruct (clf text) as [|s ss] eqn:Hs.
  { left. pose proof (analyze_and_respond_no_sentiment hash text clf emo_clf Hs) as H.
    split; [now left|]. split; [exact H|]. unfold chat_turn. now rewrite H. }
  destruct (emo_clf text) as [|e es] eqn:He.
  { left. pose proof (analyze_and_respond_no_emotion hash text clf emo_clf He) as H.
    split; [now right|]. split; [exact H|]. unfold chat_turn. now rewrite H. }
  right.
  destruct (chat_turn_closed hash text clf emo_clf s ss e es Hs He)
    as (r & tip & Hr & _ & _ & _ & _ & _ & _ & _ & Ht).
  exists s, ss, e, es, r. eexists. repeat split; [exact Hr|exact Ht].
Qed.

(** X8. [analyze_and_respond] raises exactly when one of the two
    pipelines returns an empty list, and then it is an [IndexError]: the
    dict lookup, the modulo and the list subscript of the template
    selection never raise. *)
Theorem analyze_and_respond_raises
    (hash : string -> Z) (text : string) (clf emo_clf : classifier) (err : exn) :
  analyze_and_respond hash text clf emo_clf = inl err
  <-> (clf text = [] \/ emo_clf text = []) /\ err = IndexError.
Proof.
  destruct (analyze_and_respond_cases hash text clf emo_clf)
    as [(Hempty & Hr & _) | (s & ss & e & es & r & tip & Hs & He & Hr & _)];
    rewrite Hr; split.
  - intros [= <-]. now split.
  - intros [_ ->]. reflexivity.
  - discriminate.
  - intros [[H|H] _]; congruence.
Qed.

(** X9. One turn of the chat loop raises exactly when
    [analyze_and_respond] does: choosing the tip adds no exception. *)
Theorem chat_turn_raises
    (hash : string -> Z) (text : string) (clf emo_clf : classifier) (err : exn) :
  chat_turn hash text clf emo_clf = inl err
  <-> analyze_and_respond hash text clf emo_clf = inl err.
Proof.
  destruct (analyze_and_respond_cases hash text clf emo_clf)
    as [(_ & Hr & Ht) | (s & ss & e & es & r & tip & _ & _ & Hr & Ht)];
    rewrite Hr, Ht; split; congruence.
Qed.

(** X10. The reply is the crisis message exactly when the crisis detector
    fires on the text, and the crisis entry of the result is the
    detector's answer. *)
Theorem crisis_reply_iff_flagged
    (hash : string -> Z) (text : string) (clf emo_clf : classifier) (r : Response) :
  analyze_and_respond hash text clf emo_clf = inr r ->
  res_crisis r = detect_crisis text
  /\ (res_reply r = CRISIS_REPLY <-> detect_crisis text = true).
Proof.
  intros Hr.
  destruct (analyze_and_respond_cases hash text clf emo_clf)
    as [(_ & Hr' & _) | (s & ss & e & es & r' & tip & Hs & He & Hr' & _)];
    [congruence|].
  destruct (chat_turn_closed hash text clf emo_clf s ss e es Hs He)
    as (r'' & _ & Hr'' & _ & _ & _ & _ & Hc & Hrep & _).
  assert (r'' = r) as -> by congruence. split; [exact Hc|].
  destruct (detect_crisis text).
  - injection Hrep as <-. tauto.
  - split; [|discriminate]. intros E. exfalso.
    destruct (build_emotion_specific_response_ok hash
                (routed_emotion (sentiment_label s) (emotion_label e)) text)
      as (choices & reply & Hk & _ & Hi & Hb).
    assert (reply = res_reply r) as -> by congruence.
    apply (templates_not_crisis _ _ Hk). rewrite <- E.
    apply list_elem_of_lookup. eauto.
Qed.

Lemma crisis_reply_iff_flagged_witness :
  exists r,
    analyze_and_respond (hash_of_seed 0) "I got the job!"
      (answering (result_of "POSITIVE" 0.95)) (answering (result_of "joy" 0.9)) = inr r
    /\ res_crisis r = false /\ res_reply r <> CRISIS_REPLY.
Proof.
  assert (analyze_and_respond (hash_of_seed 0) "I got the job!"
            (answering (result_of "POSITIVE" 0.95)) (answering (result_of "joy" 0.9))
          = inr {| res_label := "POSITIVE"; res_score := 0.95;
                   res_emotion := "joy"; res_emotion_score := 0.9;
                   res_crisis := false;
                   res_reply := "That spark matters. What would help you keep this momentum for the next hour?" |})
    as H by (vm_compute; reflexivity).
  eexists. split; [exact H|].
  destruct (crisis_reply_iff_flagged _ _ _ _ _ H) as [Hc Hiff].
  split; [reflexivity|]. intros E. apply Hiff in E. vm_compute in E. discriminate E.
Defined.

(** ** How sentiment and emotion are combined *)

Section Routing.

Variable hash : string -> Z.

(** Without a crisis phrase: the result, the list the reply is taken
    from, and the chat turn. *)
Lemma calm_turn (text : string) (clf emo_clf : classifier) s ss e es :
  detect_crisis text = false -> clf text = s :: ss -> emo_clf text = e :: es ->
  exists r choices tip,
    analyze_and_respond hash text clf emo_clf = inr r
    /\ templates !! template_key (routed_emotion (sentiment_label s) (emotion_label e))
       = Some choices
    /\ res_reply r ∈ choices
    /\ chat_turn hash text clf emo_clf =
         inr (res_reply r,
              if (sentiment_label s =? "NEGATIVE")%string
                 || bool_decide (emotion_label e ∈ negative_emotions)
              then Some tip else None).
Proof.
  intros Hc Hs He.
  destruct (chat_turn_closed hash text clf emo_clf s ss e es Hs He)
    as (r & tip & Hr & _ & _ & _ & _ & _ & Hrep & _ & Ht).
  rewrite Hc in Hrep, Ht.
  destruct (build_emotion_specific_response_ok hash
              (routed_emotion (sentiment_label s) (emotion_label e)) text)
    as (choices & reply & Hk & _ & Hi & Hb).
  assert (reply = res_reply r) as -> by congruence.
  exists r, choices, tip. split; [exact Hr|]. split; [exact Hk|].
  split; [apply list_elem_of_lookup; eauto|exact Ht].
Qed.

Lemma template_key_known (emotion : string) :
  emotion ∈ dom templates -> template_key emotion = emotion.
Proof. intros H. unfold template_key. now rewrite (bool_decide_eq_true_2 _ H). Qed.

Lemma template_key_inv (emotion k : string) :
  template_key emotion = k -> k <> "neutral" -> emotion = k.
Proof. unfold template_key. case_bool_decide; congruence. Qed.

End Routing.

(** X11. A negative emotion decides the reply whatever the sentiment
    says: without a crisis phrase and with an emotion label among
    sadness, anger, fear and disgust, the reply is one of that emotion's
    templates and a tip is shown, also when the sentiment label is
    POSITIVE. *)
Theorem negative_emotion_overrides_sentiment
    (hash : string -> Z) (text : string) (clf emo_clf : classifier) s ss e es :
  detect_crisis text = false -> clf text = s :: ss -> emo_clf text = e :: es ->
  emotion_label e ∈ negative_emotions ->
  exists r choices tip,
    analyze_and_respond hash text clf emo_clf = inr r
    /\ templates !! emotion_label e = Some choices
    /\ res_reply r ∈ choices
    /\ chat_turn hash text clf emo_clf = inr (res_reply r, Some tip).
Proof.
  intros Hc Hs He Hn.
  destruct (calm_turn hash text clf emo_clf s ss e es Hc Hs He)
    as (r & choices & tip & Hr & Hk & Hin & Ht).
  exists r, choices, tip.
  rewrite (bool_decide_eq_true_2 _ Hn), orb_true_r in Ht.
  unfold routed_emotion in Hk.
  rewrite (bool_decide_eq_true_2 _ Hn), orb_true_r in Hk.
  rewrite (template_key_known _ (negative_emotions_known _ Hn)) in Hk.
  now repeat split.
Qed.

Lemma negative_emotion_overrides_sentiment_witness :
  exists r choices tip,
    analyze_and_respond (hash_of_seed 0) "I won, but I miss her"
      (answering (result_of "POSITIVE" 0.9)) (answering (result_of "sadness" 0.7)) = inr r
    /\ templates !! "sadness" = Some choices
    /\ res_reply r ∈ choices
    /\ chat_turn (hash_of_seed 0) "I won, but I miss her"
         (answering (result_of "POSITIVE" 0.9)) (answering (result_of "sadness" 0.7))
       = inr (res_reply r, Some tip).
Proof.
  apply (negative_emotion_overrides_sentiment (hash_of_seed 0) "I won, but I miss her"
           (answering (result_of "POSITIVE" 0.9)) (answering (result_of "sadness" 0.7))
           (result_of "POSITIVE" 0.9) [] (result_of "sadness" 0.7) []);
    try reflexivity; try by_evaluation.
Defined.

(** X12. Without a crisis phrase, with a sentiment label other than
    NEGATIVE and an emotion outside the negative four, a POSITIVE
    sentiment or the emotion joy gives one of the joy templates and no
    tip. *)
Theorem positive_branch
    (hash : string -> Z) (text : string) (clf emo_clf : classifier) s ss e es :
  detect_crisis text = false -> clf text = s :: ss -> emo_clf text = e :: es ->
  sentiment_label s <> "NEGATIVE" -> emotion_label e ∉ negative_emotions ->
  sentiment_label s = "POSITIVE" \/ emotion_label e = "joy" ->
  exists r choices,
    analyze_and_respond hash text clf emo_clf = inr r
    /\ templates !! "joy" = Some choices
    /\ res_reply r ∈ choices
    /\ chat_turn hash text clf emo_clf = inr (res_reply r, None).
Proof.
  intros Hc Hs He Hl Hn Hp.
  destruct (calm_turn hash text clf emo_clf s ss e es Hc Hs He)
    as (r & choices & tip & Hr & Hk & Hin & Ht).
  exists r, choices.
  apply String.eqb_neq in Hl.
  rewrite Hl, (bool_decide_eq_false_2 _ Hn) in Ht. cbn [orb] in Ht.
  unfold routed_emotion in Hk.
  rewrite Hl, (bool_decide_eq_false_2 _ Hn) in Hk. cbn [orb] in Hk.
  replace ((sentiment_label s =? "POSITIVE")%string || (emotion_label e =? "joy")%string)
    with true in Hk
    by (symmetry; apply orb_true_iff; rewrite !String.eqb_eq; exact Hp).
  now repeat split.
Qed.

Lemma positive_branch_witness :
  exists r choices,
    analyze_and_respond (hash_of_seed 0) "what a twist" 
      (answering (result_of "POSITIVE" 0.9)) (answering (result_of "surprise" 0.7)) = inr r
    /\ templates !! "joy" = Some choices
    /\ res_reply r ∈ choices
    /\ chat_turn (hash_of_seed 0) "what a twist"
         (answering (result_of "POSITIVE" 0.9)) (answering (result_of "surprise" 0.7))
       = inr (res_reply r, None).
Proof.
  apply (positive_branch (hash_of_seed 0) "what a twist"
           (answering (result_of "POSITIVE" 0.9)) (answering (result_of "surprise" 0.7))
           (result_of "POSITIVE" 0.9) [] (result_of "surprise" 0.7) []);
    try reflexivity; try discriminate; try by_evaluation.
Defined.

(** X13. Without a crisis phrase, with a sentiment label that is
    neither NEGATIVE nor POSITIVE and an emotion that is neither one of
    the negative four nor joy, the reply is one of the neutral templates
    and no tip is shown; the emotion surprise is such a case. *)
Theorem neutral_branch
    (hash : string -> Z) (text : string) (clf emo_clf : classifier) s ss e es :
  detect_crisis text = false -> clf text = s :: ss -> emo_clf text = e :: es ->
  sentiment_label s <> "NEGATIVE" -> sentiment_label s <> "POSITIVE" ->
  emotion_label e ∉ negative_emotions -> emotion_label e <> "joy" ->
  exists r choices,
    analyze_and_respond hash text clf emo_clf = inr r
    /\ templates !! "neutral" = Some choices
    /\ res_reply r ∈ choices
    /\ chat_turn hash text clf emo_clf = inr (res_reply r, None).
Proof.
  intros Hc Hs He Hl Hp Hn Hj.
  destruct (calm_turn hash text clf emo_clf s ss e es Hc Hs He)
    as (r & choices & tip & Hr & Hk & Hin & Ht).
  exists r, choices.
  apply String.eqb_neq in Hl, Hp, Hj.
  rewrite Hl, (bool_decide_eq_false_2 _ Hn) in Ht. cbn [orb] in Ht.
  unfold routed_emotion in Hk.
  rewrite Hl, Hp, Hj, (bool_decide_eq_false_2 _ Hn) in Hk. cbn [orb] in Hk.
  now repeat split.
Qed.

Lemma neutral_branch_witness :
  exists r choices,
    analyze_and_respond (hash_of_seed 0) "what a twist"
      (answering {| cr_label := None; cr_score := None |})
      (answering (result_of "surprise" 0.7)) = inr r
    /\ templates !! "neutral" = Some choices
    /\ res_reply r ∈ choices
    /\ chat_turn (hash_of_seed 0) "what a twist"
         (answering {| cr_label := None; cr_score := None |})
         (answering (result_of "surprise" 0.7))
       = inr (res_reply r, None).
Proof.
  apply (neutral_branch (hash_of_seed 0) "what a twist"
           (answering {| cr_label := None; cr_score := None |})
           (answering (result_of "surprise" 0.7))
           {| cr_label := None; cr_score := None |} [] (result_of "surprise" 0.7) []);
    try reflexivity; try discriminate; try by_evaluation.
Defined.

(** X14. Without a crisis phrase the reply tells the key it was taken
    from: it is in the list of a key of the table exactly when that key is
    the one looked up for the routed emotion. *)
Theorem reply_identifies_key
    (hash : string -> Z) (text : string) (clf emo_clf : classifier) s ss e es
    (r : Response) (k : string) (choices : list string) :
  detect_crisis text = false -> clf text = s :: ss -> emo_clf text = e :: es ->
  analyze_and_respond hash text clf emo_clf = inr r ->
  templates !! k = Some choices ->
  res_reply r ∈ choices
  <-> k = template_key (routed_emotion (sentiment_label s) (emotion_label e)).
Proof.
  intros Hc Hs He Hr Hk.
  destruct (calm_turn hash text clf emo_clf s ss e es Hc Hs He)
    as (r' & choices' & tip & Hr' & Hk' & Hin & _).
  assert (r' = r) as -> by congruence. split.
  - intros Hin'. apply (template_owner _ _ _ _ _ Hk Hk' Hin' Hin).
  - intros ->. congruence.
Qed.

Lemma reply_identifies_key_witness :
  "That spark matters. What would help you keep this momentum for the next hour?"
    ∈ [ "I love the hopeful energy here. What helped you get to this point today? Let’s note a small win to carry forward.";
        "That spark matters. What would help you keep this momentum for the next hour?" ]
  <-> "joy" = template_key (routed_emotion "POSITIVE" "joy").
Proof.
  apply (reply_identifies_key (hash_of_seed 0) "I got the job!"
           (answering (result_of "POSITIVE" 0.95)) (answering (result_of "joy" 0.9))
           (result_of "POSITIVE" 0.95) [] (result_of "joy" 0.9) []
           {| res_label := "POSITIVE"; res_score := 0.95;
              res_emotion := "joy"; res_emotion_score := 0.9;
              res_crisis := false;
              res_reply := "That spark matters. What would help you keep this momentum for the next hour?" |}
           "joy");
    try reflexivity; vm_compute; reflexivity.
Defined.

(** X15. The surprise templates are reached through a NEGATIVE sentiment
    only: a reply from the surprise list means that the sentiment label
    was NEGATIVE and the emotion label surprise. *)
Theorem surprise_needs_negative_sentiment
    (hash : string -> Z) (text : string) (clf emo_clf : classifier) s ss e es
    (r : Response) (choices : list string) :
  detect_crisis text = false -> clf text = s :: ss -> emo_clf text = e :: es ->
  analyze_and_respond hash text clf emo_clf = inr r ->
  templates !! "surprise" = Some choices -> res_reply r ∈ choices ->
  sentiment_label s = "NEGATIVE" /\ emotion_label e = "surprise".
Proof.
  intros Hc Hs He Hr Hk Hin.
  destruct (calm_turn hash text clf emo_clf s ss e es Hc Hs He)
    as (r' & choices' & tip & Hr' & Hk' & Hin' & _).
  assert (r' = r) as -> by congruence.
  pose proof (template_owner _ _ _ _ _ Hk' Hk Hin' Hin) as Hkey.
  apply template_key_inv in Hkey; [|discriminate].
  unfold routed_emotion in Hkey.
  destruct (String.eqb_spec (sentiment_label s) "NEGATIVE") as [Hl|Hl].
  - cbn [orb] in Hkey. now split.
  - cbn [orb] in Hkey. case_bool_decide as Hn.
    + exfalso. rewrite Hkey in Hn. revert Hn. by_evaluation.
    + destruct (_ || _); discriminate.
Qed.

Lemma surprise_needs_negative_sentiment_witness :
  sentiment_label (result_of "negative" 0.8) = "NEGATIVE"
  /\ emotion_label (result_of "surprise" 0.6) = "surprise".
Proof.
  apply (surprise_needs_negative_sentiment (hash_of_seed 0) "I did not expect that at all"
           (answering (result_of "negative" 0.8)) (answering (result_of "surprise" 0.6))
           (result_of "negative" 0.8) [] (result_of "surprise" 0.6) []
           {| res_label := "NEGATIVE"; res_score := 0.8;
              res_emotion := "surprise"; res_emotion_score := 0.6;
              res_crisis := false;
              res_reply := "That’s a lot to take in at once. Want to unpack it together, one small piece at a time?" |}
           [ "That’s a lot to take in at once. Want to unpack it together, one small piece at a time?";
             "Unexpected moments can shake us. What’s one thing you know for sure right now?" ]);
    try reflexivity; try (vm_compute; reflexivity); try by_evaluation.
Defined.

(** ** What the chat turn depends on *)

(** X16. Reply and tip depend on the two pipelines only through the
    upper-cased sentiment label and the lower-cased emotion label of the
    first result of each: the letter case of the labels, both scores and
    any further results in the lists play no part. *)
Theorem chat_turn_depends_on_labels
    (hash : string -> Z) (text : string) (clf1 clf2 emo_clf1 emo_clf2 : classifier)
    s1 ss1 s2 ss2 e1 es1 e2 es2 :
  clf1 text = s1 :: ss1 -> clf2 text = s2 :: ss2 ->
  emo_clf1 text = e1 :: es1 -> emo_clf2 text = e2 :: es2 ->
  PyStr.upper (get (cr_label s1) "NEUTRAL") = PyStr.upper (get (cr_label s2) "NEUTRAL") ->
  PyStr.lower (get (cr_label e1) "neutral") = PyStr.lower (get (cr_label e2) "neutral") ->
  chat_turn hash text clf1 emo_clf1 = chat_turn hash text clf2 emo_clf2.
Proof.
  intros Hs1 Hs2 He1 He2 Hl He.
  destruct (chat_turn_closed hash text clf1 emo_clf1 s1 ss1 e1 es1 Hs1 He1)
    as (r1 & tip1 & _ & _ & _ & _ & _ & _ & Hrep1 & Htip1 & ->).
  destruct (chat_turn_closed hash text clf2 emo_clf2 s2 ss2 e2 es2 Hs2 He2)
    as (r2 & tip2 & _ & _ & _ & _ & _ & _ & Hrep2 & Htip2 & ->).
  fold (sentiment_label s1) (sentiment_label s2) in Hl.
  fold (emotion_label e1) (emotion_label e2) in He.
  rewrite Hl, He in *.
  assert (res_reply r1 = res_reply r2) as -> by congruence.
  assert (tip1 = tip2) as -> by congruence.
  reflexivity.
Qed.

Lemma chat_turn_depends_on_labels_witness :
  chat_turn (hash_of_seed 0) "work was rough today"
    (answering (result_of "negative" 0.51)) (answering (result_of "SADNESS" 0.99))
  = chat_turn (hash_of_seed 0) "work was rough today"
      (fun _ => [ {| cr_label := Some "NEGATIVE"; cr_score := None |};
                  result_of "POSITIVE" 0.2 ])
      (answering {| cr_label := Some "Sadness"; cr_score := None |}).
Proof.
  eapply (chat_turn_depends_on_labels (hash_of_seed 0) "work was rough today");
    reflexivity.
Defined.

Lemma build_emotion_specific_response_mod_2
    (hash1 hash2 : string -> Z) (emotion text : string) :
  Z.abs (hash1 text) mod 2 = Z.abs (hash2 text) mod 2 ->
  build_emotion_specific_response hash1 emotion text
  = build_emotion_specific_response hash2 emotion text.
Proof.
  intros H. unfold build_emotion_specific_response.
  destruct (template_key_lookup emotion) as [choices Hc].
  fold (template_key emotion).
  destruct (templates_pairs _ _ Hc) as (a & b & ->).
  rewrite (dict_getitem_Some _ _ _ Hc), !bind_inr.
  change (len [a; b]) with 2. unfold py_mod. cbn [Z.eqb]. now rewrite H.
Qed.

Lemma analyze_and_respond_mod_2
    (hash1 hash2 : string -> Z) (text : string) (clf emo_clf : classifier) :
  Z.abs (hash1 text) mod 2 = Z.abs (hash2 text) mod 2 ->
  analyze_and_respond hash1 text clf emo_clf = analyze_and_respond hash2 text clf emo_clf.
Proof.
  intros H. unfold analyze_and_respond.
  destruct (list_getitem (clf text) 0) as [err|result]; [reflexivity|].
  rewrite !bind_inr.
  destruct (classify_emotion text emo_clf) as [err|[emo_label emo_score]]; [reflexivity|].
  rewrite !bind_inr. cbv beta iota zeta.
  now rewrite !(build_emotion_specific_response_mod_2 hash1 hash2 _ text H).
Qed.

(** X17. Of the hash, [analyze_and_respond] uses the parity only: two
    hash functions that are both even or both odd on the text give the
    same result. *)
Theorem result_depends_on_parity
    (hash1 hash2 : string -> Z) (text : string) (clf emo_clf : classifier) :
  Z.even (hash1 text) = Z.even (hash2 text) ->
  analyze_and_respond hash1 text clf emo_clf = analyze_and_respond hash2 text clf emo_clf.
Proof.
  intros H. apply analyze_and_respond_mod_2. rewrite !abs_mod_2. now rewrite H.
Qed.

Lemma result_depends_on_parity_witness :
  analyze_and_respond (hash_of_seed 0) "hello"
    (answering (result_of "NEGATIVE" 0.8)) (answering (result_of "fear" 0.6))
  = analyze_and_respond (hash_of_seed 1) "hello"
      (answering (result_of "NEGATIVE" 0.8)) (answering (result_of "fear" 0.6)).
Proof.
  apply (result_depends_on_parity (hash_of_seed 0) (hash_of_seed 1) "hello").
  vm_compute. reflexivity.
Defined.

(** X18. Of the hash, one turn of the chat loop uses the absolute value
    modulo 4 only: two hash functions that agree on it for the text give
    the same reply and the same tip. *)
Theorem chat_turn_depends_on_mod_4
    (hash1 hash2 : string -> Z) (text : string) (clf emo_clf : classifier) :
  Z.abs (hash1 text) mod 4 = Z.abs (hash2 text) mod 4 ->
  chat_turn hash1 text clf emo_clf = chat_turn hash2 text clf emo_clf.
Proof.
  intros H.
  assert (Z.abs (hash1 text) mod 2 = Z.abs (hash2 text) mod 2) as H2.
  { revert H. generalize (Z.abs (hash1 text)), (Z.abs (hash2 text)). intros x y.
    Z.div_mod_to_equations. lia. }
  unfold chat_turn, micro_boost, py_mod.
  rewrite (analyze_and_respond_mod_2 hash1 hash2 text clf emo_clf H2).
  change (len tips) with 4. cbn [Z.eqb]. now rewrite H.
Qed.

Lemma chat_turn_depends_on_mod_4_witness :
  chat_turn (hash_of_seed 0) "hello"
    (answering (result_of "NEGATIVE" 0.8)) (answering (result_of "fear" 0.6))
  = chat_turn (hash_of_seed 1) "hello"
      (answering (result_of "NEGATIVE" 0.8)) (answering (result_of "fear" 0.6)).
Proof.
  apply (chat_turn_depends_on_mod_4 (hash_of_seed 0) (hash_of_seed 1) "hello").
  vm_compute. reflexivity.
Defined.

(** ** The chat history over a conversation *)

Section History.

Variable hash : string -> Z.
Variables clf emo_clf : classifier.

Lemma rerun_initial (session : option (list Message)) (user_input : option string) :
  rerun hash clf emo_clf (Some (initial_messages session)) user_input
  = rerun hash clf emo_clf session user_input.
Proof. reflexivity. Qed.

Lemma conversation_initial (session : option (list Message)) (inputs : list (option string)) :
  conversation hash clf emo_clf (Some (initial_messages session)) inputs
  = conversation hash clf emo_clf session inputs.
Proof. destruct inputs; reflexivity. Qed.

Lemma rerun_submitted (session : option (list Message)) (c : ascii) (t : string) :
  rerun hash clf emo_clf session (Some (String c t))
  = (initial_messages session ++ turn_messages hash clf emo_clf (String c t))%list.
Proof.
  unfold rerun, turn_messages.
  destruct (chat_turn hash (String c t) clf emo_clf) as [err|[reply tip]].
  - reflexivity.
  - now rewrite <- app_assoc.
Qed.

(** The history after a conversation: what was there, then the messages
    of each submitted text in turn. *)
Lemma conversation_unfold (session : option (list Message)) (inputs : list (option string)) :
  conversation hash clf emo_clf session inputs
  = (initial_messages session
     ++ (submitted inputs ≫= turn_messages hash clf emo_clf))%list.
Proof.
  revert session. induction inputs as [|user_input inputs IH]; intros session.
  - simpl. now rewrite app_nil_r.
  - cbn [conversation]. rewrite IH. cbn [initial_messages].
    destruct user_input as [[|c t]|].
    + reflexivity.
    + rewrite rerun_submitted. unfold submitted. cbn [omap]. fold (submitted inputs).
      cbn [mbind list_bind]. now rewrite <- app_assoc.
    + reflexivity.
Qed.

End History.

Lemma submitted_app (inputs1 inputs2 : list (option string)) :
  submitted (inputs1 ++ inputs2) = (submitted inputs1 ++ submitted inputs2)%list.
Proof. unfold submitted. apply omap_app. Qed.

Lemma submitted_idem (inputs : list (option string)) :
  submitted (Some <$> submitted inputs) = submitted inputs.
Proof.
  induction inputs as [|[[|c t]|] inputs IH]; try exact IH; [reflexivity|].
  change (submitted (Some (String c t) :: inputs)) with (String c t :: submitted inputs).
  change (String c t :: submitted (Some <$> submitted inputs) = String c t :: submitted inputs).
  now rewrite IH.
Qed.

Lemma turn_messages_answered
    (hash : string -> Z) (clf emo_clf : classifier) (text : string) :
  clf text <> [] -> emo_clf text <> [] ->
  exists reply tip,
    chat_turn hash text clf emo_clf = inr (reply, tip)
    /\ turn_messages hash clf emo_clf text
       = [ {| role := "user"; content := text |};
           {| role := "assistant"; content := reply |} ].
Proof.
  intros Hs He.
  destruct (analyze_and_respond_cases hash text clf emo_clf)
    as [([H|H] & _) | (s & ss & e & es & r & tip & _ & _ & _ & Ht)];
    [contradiction | contradiction |].
  exists (res_reply r), tip. split; [exact Ht|].
  unfold turn_messages. now rewrite Ht.
Qed.

Lemma turn_messages_failed
    (hash : string -> Z) (clf emo_clf : classifier) (text : string) :
  clf text = [] \/ emo_clf text = [] ->
  turn_messages hash clf emo_clf text = [ {| role := "user"; content := text |} ].
Proof.
  intros H.
  destruct (analyze_and_respond_cases hash text clf emo_clf)
    as [(_ & _ & Ht) | (s & ss & e & es & r & tip & Hs & He & _)].
  - unfold turn_messages. now rewrite Ht.
  - destruct H; congruence.
Qed.

(** X19. Runs of the script without a submitted text, with no input or
    with the empty text, leave no trace: the history after a sequence of
    runs is the history after the submitted texts alone. *)
Theorem idle_runs_leave_no_trace
    (hash : string -> Z) (clf emo_clf : classifier)
    (session : option (list Message)) (inputs : list (option string)) :
  conversation hash clf emo_clf session inputs
  = conversation hash clf emo_clf session (Some <$> submitted inputs).
Proof.
  rewrite !conversation_unfold. now rewrite submitted_idem.
Qed.

(** X20. The history only grows: what it holds after some runs is a
    prefix of what it holds after any further runs, also when turns
    raise. *)
Theorem history_append_only
    (hash : string -> Z) (clf emo_clf : classifier)
    (session : option (list Message)) (inputs more : list (option string)) :
  conversation hash clf emo_clf session inputs
  `prefix_of` conversation hash clf emo_clf session (inputs ++ more).
Proof.
  rewrite !conversation_unfold, submitted_app, bind_app, app_assoc.
  now apply prefix_app_r.
Qed.

Lemma user_texts_app (l1 l2 : list Message) :
  user_texts (l1 ++ l2) = (user_texts l1 ++ user_texts l2)%list.
Proof. unfold user_texts. now rewrite filter_app, fmap_app. Qed.

Lemma user_texts_turns
    (hash : string -> Z) (clf emo_clf : classifier) (texts : list string) :
  user_texts (texts ≫= turn_messages hash clf emo_clf) = texts.
Proof.
  induction texts as [|t texts IH]; [reflexivity|].
  cbn [mbind list_bind]. rewrite user_texts_app, IH.
  unfold turn_messages.
  destruct (chat_turn hash t clf emo_clf) as [err|[reply tip]]; reflexivity.
Qed.

(** X21. Every submitted text is in the history, in the order of
    submission and once each, whether or not its turn raised: the user
    messages after a conversation are those that were there before,
    followed by the submitted texts. *)
Theorem user_texts_recorded
    (hash : string -> Z) (clf emo_clf : classifier)
    (session : option (list Message)) (inputs : list (option string)) :
  user_texts (conversation hash clf emo_clf session inputs)
  = (user_texts (initial_messages session) ++ submitted inputs)%list.
Proof.
  rewrite conversation_unfold, user_texts_app. f_equal.
  apply user_texts_turns.
Qed.

(** X22. When both pipelines return a result for every text, a
    conversation that starts without a history alternates: the greeting of
    the assistant, then a user message and an assistant message for each
    submitted text. *)
Theorem roles_alternate
    (hash : string -> Z) (clf emo_clf : classifier) (inputs : list (option string)) :
  (forall text, clf text <> [] /\ emo_clf text <> []) ->
  role <$> conversation hash clf emo_clf None inputs
  = "assistant" :: (submitted inputs ≫= fun _ => ["user"; "assistant"]).
Proof.
  intros Hans. rewrite conversation_unfold. cbn [initial_messages].
  rewrite fmap_app. change (role <$> [GREETING]) with ["assistant"].
  cbn [app]. f_equal. induction (submitted inputs) as [|t texts IH]; [reflexivity|].
  cbn [mbind list_bind]. rewrite fmap_app, IH.
  destruct (Hans t) as [Hs He].
  destruct (turn_messages_answered hash clf emo_clf t Hs He) as (reply & tip & _ & ->).
  reflexivity.
Qed.

Lemma roles_alternate_witness :
  role <$> conversation (hash_of_seed 0)
             (answering (result_of "NEGATIVE" 0.9)) (answering (result_of "fear" 0.8))
             None [Some "I am scared"; None; Some ""; Some "still scared"]
  = ["assistant"; "user"; "assistant"; "user"; "assistant"].
Proof.
  apply (roles_alternate (hash_of_seed 0)
           (answering (result_of "NEGATIVE" 0.9)) (answering (result_of "fear" 0.8))
           [Some "I am scared"; None; Some ""; Some "still scared"]).
  intros text. split; discriminate.
Defined.

(** X23. When a pipeline returns no result, every turn raises and the
    history keeps the user's messages without any reply. *)
Theorem failed_turns_keep_user_messages
    (hash : string -> Z) (clf emo_clf : classifier)
    (session : option (list Message)) (inputs : list (option string)) :
  (forall text, clf text = [] \/ emo_clf text = []) ->
  conversation hash clf emo_clf session inputs
  = (initial_messages session
     ++ ((fun text => {| role := "user"; content := text |}) <$> submitted inputs))%list.
Proof.
  intros Hfail. rewrite conversation_unfold. f_equal.
  induction (submitted inputs) as [|t texts IH]; [reflexivity|].
  cbn [mbind list_bind]. rewrite IH, (turn_messages_failed hash clf emo_clf t (Hfail t)).
  reflexivity.
Qed.

Lemma failed_turns_keep_user_messages_witness :
  conversation (hash_of_seed 0) (answering (result_of "NEGATIVE" 0.9)) (fun _ => [])
    None [Some "hello"; Some "anyone?"]
  = [ GREETING; {| role := "user"; content := "hello" |};
      {| role := "user"; content := "anyone?" |} ].
Proof.
  apply (failed_turns_keep_user_messages (hash_of_seed 0)
           (answering (result_of "NEGATIVE" 0.9)) (fun _ => [])
           None [Some "hello"; Some "anyone?"]).
  intros text. now right.
Defined.

(** X24. A submitted text on which the crisis detector fires is
    answered in the history by the crisis message, whatever came before,
    as long as both pipelines return a result for it. *)
Theorem crisis_text_answered_in_history
    (hash : string -> Z) (clf emo_clf : classifier)
    (session : option (list Message)) (inputs : list (option string)) (text : string) :
  detect_crisis text = true -> clf text <> [] -> emo_clf text <> [] ->
  conversation hash clf emo_clf session (inputs ++ [Some text])
  = (conversation hash clf emo_clf session inputs
     ++ [ {| role := "user"; content := text |};
          {| role := "assistant"; content := CRISIS_REPLY |} ])%list.
Proof.
  intros Hc Hs He.
  destruct text as [|c t]; [discriminate|].
  rewrite !conversation_unfold, submitted_app, bind_app, <- app_assoc.
  do 2 f_equal.
  change (submitted [Some (String c t)]) with [String c t].
  cbn [mbind list_bind]. rewrite app_nil_r.
  destruct (clf (String c t)) as [|s ss] eqn:Es; [contradiction|].
  destruct (emo_clf (String c t)) as [|e es] eqn:Ee; [contradiction|].
  pose proof (analyze_and_respond_crisis hash _ clf emo_clf s ss e es Hc Es Ee) as Hr.
  destruct (chat_turn_ok hash _ clf emo_clf _ Hr) as (tip & _ & Ht).
  unfold turn_messages. rewrite Ht. reflexivity.
Qed.

Lemma crisis_text_answered_in_history_witness :
  conversation (hash_of_seed 0)
    (answering (result_of "POSITIVE" 0.9)) (answering (result_of "joy" 0.8))
    None ([] ++ [Some "some days I think of ending it"])
  = (conversation (hash_of_seed 0)
       (answering (result_of "POSITIVE" 0.9)) (answering (result_of "joy" 0.8)) None []
     ++ [ {| role := "user"; content := "some days I think of ending it" |};
          {| role := "assistant"; content := CRISIS_REPLY |} ])%list.
Proof.
  apply (crisis_text_answered_in_history (hash_of_seed 0)
           (answering (result_of "POSITIVE" 0.9)) (answering (result_of "joy" 0.8))
           None [] "some days I think of ending it");
    [reflexivity | discriminate | discriminate].
Defined.

(** ** Incomplete, unknown and missing classifier results *)

Lemma neutral_known : "neutral" ∈ dom templates.
Proof.
  rewrite templates_dom, !elem_of_union, !elem_of_singleton. tauto.
Qed.

Lemma is_Some_if {A : Type} (b : bool) (x : A) :
  is_Some (if b then Some x else None) <-> b = true.
Proof.
  destruct b; split; intros H; try reflexivity; try discriminate; eauto.
  destruct H; discriminate.
Qed.

(** The reply of a turn without a crisis phrase is in the list of the
    key that is looked up for the routed emotion. *)
Lemma calm_reply_listed
    (hash : string -> Z) (text : string) (label emo : string) (reply : string) :
  build_emotion_specific_response hash (routed_emotion label emo) text = inr reply ->
  exists choices,
    templates !! template_key (routed_emotion label emo) = Some choices
    /\ reply ∈ choices.
Proof.
  intros Hb.
  destruct (build_emotion_specific_response_ok hash (routed_emotion label emo) text)
    as (choices & reply' & Hk & _ & Hi & Hb').
  assert (reply' = reply) as -> by congruence.
  exists choices. split; [exact Hk|]. apply list_elem_of_lookup. eauto.
Qed.

Lemma template_key_unknown_emotion (label emo : string) :
  emo ∉ dom templates ->
  template_key (routed_emotion label emo)
  = if (label =? "POSITIVE")%string then "joy" else "neutral".
Proof.
  intros Hu. rewrite (routed_emotion_unknown_emotion label emo Hu).
  unfold routed_emotion.
  rewrite (bool_decide_eq_false_2 _ neutral_not_negative).
  change ("neutral" =? "joy")%string with false. rewrite !orb_false_r.
  destruct (String.eqb_spec label "NEGATIVE") as [->|Hn].
  - change ("NEGATIVE" =? "POSITIVE")%string with false.
    apply template_key_known, neutral_known.
  - destruct (label =? "POSITIVE")%string.
    + apply template_key_known, joy_known.
    + apply template_key_known, neutral_known.
Qed.

(** C8, as stated, fails.  A pipeline that returns an empty list is an
    input on which [analyze_and_respond] raises: the subscript [[0]] gives
    an [IndexError], and the chat turn fails with it.  And an emotion
    label outside the table does not always end in a neutral template:
    with a POSITIVE sentiment the reply is a joy template. *)
Lemma malformed_results_counterexample :
  let text := "the meeting is at noon" in
  let clf := answering (result_of "POSITIVE" 0.9) in
  analyze_and_respond (hash_of_seed 0) text clf (fun _ => []) = inl IndexError
  /\ chat_turn (hash_of_seed 0) text clf (fun _ => []) = inl IndexError
  /\ analyze_and_respond (hash_of_seed 0) text (fun _ => []) clf = inl IndexError
  /\ exists r joy_choices neutral_choices,
       analyze_and_respond (hash_of_seed 0) text clf (answering (result_of "confusion" 0.6))
       = inr r
       /\ (emotion_label (result_of "confusion" 0.6) ∉ dom templates)
       /\ templates !! "joy" = Some joy_choices
       /\ res_reply r ∈ joy_choices
       /\ templates !! "neutral" = Some neutral_choices
       /\ (res_reply r ∉ neutral_choices).
Proof.
  cbv zeta. repeat split; try (vm_compute; reflexivity).
  eexists _, _, _. split; [vm_compute; reflexivity|].
  split; [by_evaluation|]. split; [vm_compute; reflexivity|].
  split; [by_evaluation|]. split; [vm_compute; reflexivity|]. by_evaluation.
Qed.

(** C8, amended.  When a pipeline returns an empty list,
    [analyze_and_respond] raises an [IndexError].  When each pipeline
    returns at least one result dict, whose label is a [str] and whose
    score is a [float] where present, [analyze_and_respond] and the chat
    turn raise nothing, and:
    - the result carries the upper-cased sentiment label, the
      lower-cased emotion label and the two scores, with NEUTRAL, neutral
      and 0.5 for what is missing;
    - a crisis phrase in the text still gives the crisis message and no
      tip;
    - a sentiment label other than NEGATIVE and POSITIVE gives the reply
      and tip of the label NEUTRAL: without a crisis phrase, a template
      of the key looked up for the emotion, and a tip exactly for a
      negative emotion;
    - an emotion label outside the table gives the reply and tip of the
      label neutral: without a crisis phrase, a neutral template, or a
      joy template when the sentiment is POSITIVE, and a tip exactly for
      a NEGATIVE sentiment.
    [build_emotion_specific_response] itself answers every emotion
    outside the table with a neutral template. *)
Theorem malformed_results_defaulted
    (hash : string -> Z) (text : string) (clf emo_clf : classifier) :
  (clf text = [] \/ emo_clf text = [] ->
   analyze_and_respond hash text clf emo_clf = inl IndexError
   /\ chat_turn hash text clf emo_clf = inl IndexError)
  /\ (forall s ss e es, clf text = s :: ss -> emo_clf text = e :: es ->
      exists r tip,
        analyze_and_respond hash text clf emo_clf = inr r
        /\ chat_turn hash text clf emo_clf = inr (res_reply r, tip)
        /\ res_label r = sentiment_label s /\ res_score r = sentiment_score s
        /\ res_emotion r = emotion_label e /\ res_emotion_score r = emotion_score e
        /\ (cr_label s = None -> res_label r = "NEUTRAL")
        /\ (cr_score s = None -> res_score r = 0.5%float)
        /\ (cr_label e = None -> res_emotion r = "neutral")
        /\ (cr_score e = None -> res_emotion_score r = 0.5%float)
        /\ (detect_crisis text = true -> res_reply r = CRISIS_REPLY /\ tip = None)
        /\ (sentiment_label s <> "NEGATIVE" -> sentiment_label s <> "POSITIVE" ->
            chat_turn hash text clf emo_clf
            = chat_turn hash text
                (answering {| cr_label := Some "NEUTRAL"; cr_score := cr_score s |}) emo_clf
            /\ (detect_crisis text = false ->
                exists choices,
                  templates !! template_key (routed_emotion "NEUTRAL" (emotion_label e))
                  = Some choices
                  /\ res_reply r ∈ choices
                  /\ (is_Some tip <-> emotion_label e ∈ negative_emotions)))
        /\ (emotion_label e ∉ dom templates ->
            chat_turn hash text clf emo_clf
            = chat_turn hash text clf
                (answering {| cr_label := Some "neutral"; cr_score := cr_score e |})
            /\ (detect_crisis text = false ->
                exists choices,
                  templates !! (if (sentiment_label s =? "POSITIVE")%string
                                then "joy" else "neutral") = Some choices
                  /\ res_reply r ∈ choices
                  /\ (is_Some tip <-> sentiment_label s = "NEGATIVE"))))
  /\ (forall emotion, emotion ∉ dom templates ->
      exists choices reply,
        templates !! "neutral" = Some choices
        /\ build_emotion_specific_response hash emotion text = inr reply
        /\ reply ∈ choices).
Proof.
  split; [|split].
  - intros Hempty.
    destruct (analyze_and_respond_cases hash text clf emo_clf)
      as [(_ & Hr & Ht) | (s & ss & e & es & _ & _ & Hs & He & _)]; [now split|].
    destruct Hempty; congruence.
  - intros s ss e es Hs He.
    destruct (chat_turn_closed hash text clf emo_clf s ss e es Hs He)
      as (r & tip & Hr & Hl & Hsc & Hel & Hes & Hc & Hrep & Htip & Ht).
    exists r, (if tip_shown (detect_crisis text) (sentiment_label s) (emotion_label e)
               then Some tip else None).
    split; [exact Hr|]. split; [exact Ht|].
    split; [exact Hl|]. split; [exact Hsc|]. split; [exact Hel|]. split; [exact Hes|].
    split; [intros E; rewrite Hl; unfold sentiment_label; now rewrite E|].
    split; [intros E; rewrite Hsc; unfold sentiment_score; now rewrite E|].
    split; [intros E; rewrite Hel; unfold emotion_label; now rewrite E|].
    split; [intros E; rewrite Hes; unfold emotion_score; now rewrite E|].
    split; [|split].
    + intros E. rewrite E in Hrep. injection Hrep as <-. rewrite E. now split.
    + intros Hn Hp. split.
      * set (s' := {| cr_label := Some "NEUTRAL"; cr_score := cr_score s |}).
        destruct (chat_turn_closed hash text (answering s') emo_clf s' [] e es eq_refl He)
          as (r' & tip' & _ & _ & _ & _ & _ & _ & Hrep' & Htip' & Ht').
        rewrite Ht, Ht'. change (sentiment_label s') with "NEUTRAL" in *.
        rewrite (routed_emotion_unknown_label _ (emotion_label e) Hn Hp) in Hrep.
        assert (res_reply r = res_reply r') as -> by congruence.
        assert (tip = tip') as -> by congruence.
        unfold tip_shown. apply String.eqb_neq in Hn. rewrite Hn. reflexivity.
      * intros E. rewrite E in Hrep.
        rewrite (routed_emotion_unknown_label _ (emotion_label e) Hn Hp) in Hrep.
        destruct (calm_reply_listed hash text _ _ _ Hrep) as (choices & Hk & Hin).
        exists choices. split; [exact Hk|]. split; [exact Hin|].
        rewrite is_Some_if, E. unfold tip_shown. cbn [negb andb].
        apply String.eqb_neq in Hn. rewrite Hn. cbn [orb].
        apply bool_decide_eq_true.
    + intros Hu. split.
      * set (e' := {| cr_label := Some "neutral"; cr_score := cr_score e |}).
        destruct (chat_turn_closed hash text clf (answering e') s ss e' [] Hs eq_refl)
          as (r' & tip' & _ & _ & _ & _ & _ & _ & Hrep' & Htip' & Ht').
        rewrite Ht, Ht'. change (emotion_label e') with "neutral" in *.
        rewrite (build_emotion_specific_response_key hash _ _ text
                   (routed_emotion_unknown_emotion (sentiment_label s) _ Hu)) in Hrep.
        assert (res_reply r = res_reply r') as -> by congruence.
        assert (tip = tip') as -> by congruence.
        unfold tip_shown.
        rewrite (bool_decide_eq_false_2 (emotion_label e ∈ negative_emotions))
          by (intros H; apply Hu, negative_emotions_known, H).
        rewrite (bool_decide_eq_false_2 _ neutral_not_negative). reflexivity.
      * intros E. rewrite E in Hrep.
        destruct (calm_reply_listed hash text _ _ _ Hrep) as (choices & Hk & Hin).
        rewrite (template_key_unknown_emotion _ _ Hu) in Hk.
        exists choices. split; [exact Hk|]. split; [exact Hin|].
        rewrite is_Some_if, E. unfold tip_shown. cbn [negb andb].
        rewrite (bool_decide_eq_false_2 (emotion_label e ∈ negative_emotions))
          by (intros H; apply Hu, negative_emotions_known, H).
        rewrite orb_false_r. apply String.eqb_eq.
  - intros emotion Hu.
    destruct (build_emotion_specific_response_ok hash emotion text)
      as (choices & reply & Hk & _ & Hi & Hb).
    unfold template_key in Hk. rewrite (bool_decide_eq_false_2 _ Hu) in Hk.
    exists choices, reply. split; [exact Hk|]. split; [exact Hb|].
    apply list_elem_of_lookup. eauto.
Qed.

Lemma malformed_results_defaulted_witness :
  let text := "the meeting is at noon" in
  let clf := answering {| cr_label := None; cr_score := None |} in
  let emo_clf := answering {| cr_label := Some "Confusion"; cr_score := None |} in
  (exists r tip choices,
     analyze_and_respond (hash_of_seed 0) text clf emo_clf = inr r
     /\ chat_turn (hash_of_seed 0) text clf emo_clf = inr (res_reply r, tip)
     /\ res_label r = "NEUTRAL" /\ res_score r = 0.5%float
     /\ res_emotion r = "confusion" /\ res_emotion_score r = 0.5%float
     /\ templates !! "neutral" = Some choices
     /\ res_reply r ∈ choices
     /\ tip = None)
  /\ analyze_and_respond (hash_of_seed 0) text clf (fun _ => []) = inl IndexError.
Proof.
  cbv zeta. split.
  - destruct (malformed_results_defaulted (hash_of_seed 0) "the meeting is at noon"
                (answering {| cr_label := None; cr_score := None |})
                (answering {| cr_label := Some "Confusion"; cr_score := None |}))
      as (_ & Hok & _).
    destruct (Hok {| cr_label := None; cr_score := None |} []
                  {| cr_label := Some "Confusion"; cr_score := None |} [] eq_refl eq_refl)
      as (r & tip & Hr & Ht & Hl & Hs & Hel & Hes & _ & _ & _ & _ & _ & _ & Hu).
    destruct Hu as [_ Hpin]; [by_evaluation|].
    destruct (Hpin eq_refl) as (choices & Hk & Hin & Htip).
    exists r, tip, choices. repeat split; try assumption.
    destruct tip as [t|]; [|reflexivity].
    assert (sentiment_label {| cr_label := None; cr_score := None |} = "NEGATIVE") as E
      by (apply Htip; eauto).
    discriminate E.
  - apply (malformed_results_defaulted (hash_of_seed 0) "the meeting is at noon"
             (answering {| cr_label := None; cr_score := None |}) (fun _ => [])).
    now right.
Defined.
